(** * Report tables of the ocean diagnostics plot plugins

    A shallow embedding of the two [_create_html] methods of
    [diagnostics/ocn/Plots/cpllog_timeseries.py] (class [CplLog]) and
    [diagnostics/ocn/Plots/western_boundary.py] (class [WesternBoundary]),
    restricted to the part that assembles [plot_table], the structure that
    is handed to the template engine, and of the methods
    [check_prerequisites] and [generate_plots] of [CplLog].

    Python strings are [string], Python lists are [list], the loop counters
    produced by [range] are [nat].  A method body is a computation in a small
    monad that records the paths handed to [cesmEnvLib.checkFile] and either
    returns a value or raises an exception. *)

From Stdlib Require Import String List Arith Bool Lia.
From Stdlib Require Import ZArith Ascii.
Import ListNotations.

Local Open Scope string_scope.
Local Open Scope list_scope.

(** String concatenation; [++] is kept for lists. *)
Infix "+:+" := String.append (at level 60, right associativity).

(** ** Python exceptions and computations *)

(** The only exception the table code raises by itself is [IndexError]
    (a subscript out of range); anything else comes out of a callee. *)
Inductive exn : Type :=
| IndexError
| OtherError (what : string).

(** A computation yields the list of paths it asked the file checker about,
    in order, and its outcome.  The [print] calls of the source write to
    standard output only and are left out. *)
Definition run (A : Type) : Type := (list string * (exn + A))%type.

Definition ret {A : Type} (a : A) : run A := ([], inr a).

Definition raise {A : Type} (e : exn) : run A := ([], inl e).

Definition bind {A B : Type} (m : run A) (k : A -> run B) : run B :=
  match m with
  | (q, inl e) => (q, inl e)
  | (q, inr a) => let (q', r) := k a in (q ++ q', r)
  end.

Notation "x <- m ;; k" := (bind m (fun x => k))
  (at level 61, m at next level, right associativity).
Notation "' pat <- m ;; k" := (bind m (fun x => match x with pat => k end))
  (at level 61, pat pattern, m at next level, right associativity).

(** [l[j]] for a non-negative [j]. *)
Definition getitem {A : Type} (l : list A) (j : nat) : run A :=
  match nth_error l j with
  | Some x => ret x
  | None => raise IndexError
  end.

(** [for x in xs: s = body(s, x)], the loop state [s] being the list the
    source appends to. *)
Fixpoint for_each {St X : Type} (xs : list X) (body : St -> X -> run St)
  (s : St) : run St :=
  match xs with
  | [] => ret s
  | x :: xs' => s' <- body s x ;; for_each xs' body s'
  end.

(** [range(n)] *)
Definition range (n : nat) : list nat := seq 0 n.

(** [sub in s] on strings: [sub] occurs in [s] as a substring. *)
Fixpoint contains (sub s : string) : bool :=
  String.prefix sub s ||
  match s with
  | EmptyString => false
  | String _ s' => contains sub s'
  end.

(** A call of [cesmEnvLib.checkFile(path, mode)].  The function lives in
    another package; it is a parameter [checkFile] of everything below, which
    either raises or returns the pair [(rc, err_msg)]. *)
Definition call_checkFile (checkFile : string -> string -> exn + (bool * string))
  (path mode : string) : run (bool * string) :=
  ([path], checkFile path mode).

(** ** Methods that act on the outside world

    [check_prerequisites] and [generate_plots] change directory, open files
    and run programs.  They are computations over a state (the object, the
    [env] dictionary and [os.environ]) that record, in order, what they do to
    the outside world; the state reached is kept when an exception is
    raised.  What the outside world answers is given by parameters; a
    parameter answers the same call in the same way throughout one run. *)

Inductive event : Type :=
| Chdir (path : string)
| Getcwd
| Glob (pattern : string)
| Open (path mode : string)
| Close (path : string)
| CheckCall (args : list string) (stdout : option string)
| CheckFile (path mode : string)
| Copy2 (src dst : string).

Definition io (St A : Type) : Type := St -> (list event * St * (exn + A)).

Definition io_ret {St A : Type} (a : A) : io St A := fun s => ([], s, inr a).

Definition io_raise {St A : Type} (e : exn) : io St A :=
  fun s => ([], s, inl e).

Definition io_bind {St A B : Type} (m : io St A) (k : A -> io St B)
  : io St B :=
  fun s =>
    match m s with
    | (t, s', inl e) => (t, s', inl e)
    | (t, s', inr a) =>
        match k a s' with
        | (t', s'', r) => (t ++ t', s'', r)
        end
    end.

Declare Scope io_scope.
Delimit Scope io_scope with io.
Notation "x <- m ;; k" := (io_bind m (fun x => k))
  (at level 61, m at next level, right associativity) : io_scope.
Notation "' pat <- m ;; k" :=
  (io_bind m (fun x => match x with pat => k end))
  (at level 61, pat pattern, m at next level, right associativity) : io_scope.

(** One call to the outside world: the call is recorded and its answer [r]
    is returned or raised. *)
Definition perform {St A : Type} (ev : event) (r : exn + A) : io St A :=
  fun s => ([ev], s, r).

(** [for x in xs: body(x)] *)
Fixpoint io_for_each {St X : Type} (xs : list X) (body : X -> io St unit)
  : io St unit :=
  match xs with
  | [] => io_ret tt
  | x :: xs' => io_bind (body x) (fun _ => io_for_each xs' body)
  end.

(** [with open(path, mode) as f: body]: if the file opens, it is closed when
    [body] is left, normally or by an exception. *)
Definition with_open {St A : Type} (open_ : string -> string -> exn + unit)
  (path mode : string) (body : io St A) : io St A :=
  io_bind (perform (Open path mode) (open_ path mode))
    (fun _ s =>
       match body s with
       | (t, s', r) => (t ++ [Close path], s', r)
       end).

(** The outcome of [subprocess.check_call]: exit status 0, a non-zero exit
    status (reported by the exception [subprocess.CalledProcessError]), or
    any other exception, such as [OSError] for a program that cannot be
    started. *)
Inductive call_result : Type :=
| Exit0
| CalledProcessError (returncode : Z)
| CallRaised (e : exn).

(** A dictionary with string keys and values. *)
Definition dict : Type := string -> option string.

(** [d[k] = v] *)
Definition dict_set (d : dict) (k v : string) : dict :=
  fun k' => if String.eqb k' k then Some v else d k'.

(** The exceptions for a missing key and for an unbound name. *)
Definition KeyError (k : string) : exn := OtherError ("KeyError: " +:+ k).

Definition NameError (name : string) : exn :=
  OtherError ("NameError: " +:+ name).

(** [s.split(sep)] for a separator of one character: the pieces of [s]
    between the occurrences of [sep], empty pieces included. *)
Fixpoint str_split (sep : Ascii.ascii) (s : string) : list string :=
  match s with
  | EmptyString => [EmptyString]
  | String c s' =>
      if Ascii.eqb c sep then EmptyString :: str_split sep s'
      else
        match str_split sep s' with
        | w :: ws => String c w :: ws
        | [] => [String c EmptyString]
        end
  end.

(** [sep.join(xs)] *)
Fixpoint str_join (sep : string) (xs : list string) : string :=
  match xs with
  | [] => EmptyString
  | x :: xs' =>
      match xs' with
      | [] => x
      | _ :: _ => x +:+ sep +:+ str_join sep xs'
      end
  end.

(** ** cpllog_timeseries.py *)

Module CplLog.

(** The attributes set by [CplLog.__init__]. *)
Record t : Type := {
  _expectedPlots : list string;
  _labels : list string;
  _linkNames : list string;
  _name : string;
  _shortname : string;
  _template_file : string;
  _ncl : list string;
  _awkError : bool;
  _tailError : bool
}.

(** [CplLog()] *)
Definition __init__ : t := {|
  _expectedPlots := ["cplheatbudget"; "cplfwbudget"];
  _labels := ["Heat"; "Freshwater"];
  _linkNames := ["timeseries"; "table"];
  _name := "CPL Surface Heat and Freshwater Flux Budget";
  _shortname := "CPLLOG";
  _template_file := "cpllog_timeseries.tmpl";
  _ncl := [];
  _awkError := false;
  _tailError := false
|}.

(** A [plot_tuple]: column index, link name, content. *)
Definition plot_tuple : Type := (nat * string * string)%type.

(** The variables handed to the template. *)
Record templateVars : Type := {
  title : string;
  plot_table_var : list (list plot_tuple);
  num_rows : nat
}.

Definition num_cols : nat := 3.

Section WithCollaborators.

Variable checkFile : string -> string -> exn + (bool * string).
(** Loading [self._template_file] from [templatePath] and rendering it. *)
Variable render : string -> string -> templateVars -> exn + string.

Variable self : t.
Variables workdir imgFormat : string.

(** Body of [for j in range(num_cols - 1)]. *)
Definition column_body (plot_list : list string)
  (plot_tuple_list : list plot_tuple) (j : nat) : run (list plot_tuple) :=
  k <- getitem (_linkNames self) j ;;
  if contains "timeseries" k then
    p <- getitem plot_list j ;;
    let img_file := p +:+ "." +:+ imgFormat in
    '(rc, err_msg) <- call_checkFile checkFile (workdir +:+ "/" +:+ img_file) "read" ;;
    k' <- getitem (_linkNames self) j ;;
    let plot_tuple :=
      if negb rc then (j + 1, k', img_file +:+ " - Error")
      else (j + 1, k', img_file) in
    ret (plot_tuple_list ++ [plot_tuple])
  else
    k <- getitem (_linkNames self) j ;;
    if contains "table" k then
      p <- getitem plot_list j ;;
      let asc_file := p +:+ "." +:+ "asc" in
      '(rc, err_msg) <- call_checkFile checkFile (workdir +:+ "/" +:+ asc_file) "read" ;;
      k' <- getitem (_linkNames self) j ;;
      let plot_tuple :=
        if negb rc then (j + 1, k', asc_file +:+ " - Error")
        else (j + 1, k', asc_file) in
      ret (plot_tuple_list ++ [plot_tuple])
    else
      ret plot_tuple_list.

(** Body of [for i in range(len(self._labels))]. *)
Definition row_body (plot_table : list (list plot_tuple)) (i : nat)
  : run (list (list plot_tuple)) :=
  let plot_tuple_list := [] in
  label <- getitem (_labels self) i ;;
  let plot_tuple := (0, "label", label +:+ ":") in
  let plot_tuple_list := plot_tuple_list ++ [plot_tuple] in
  let plot_list := _expectedPlots self in
  plot_tuple_list <-
    for_each (range (num_cols - 1)) (column_body plot_list) plot_tuple_list ;;
  ret (plot_table ++ [plot_tuple_list]).

(** The value of [plot_table] when the loops are over. *)
Definition plot_table : run (list (list plot_tuple)) :=
  for_each (range (length (_labels self))) row_body [].

Definition _create_html (templatePath : string) : run string :=
  plot_table <- plot_table ;;
  let templateVars := {|
    title := _name self;
    plot_table_var := plot_table;
    num_rows := length (_labels self)
  |} in
  ([], render templatePath (_template_file self) templateVars).

End WithCollaborators.

(** The object, the dictionary [env] passed to the method, and
    [os.environ]. *)
Record state : Type := {
  st_self : t;
  st_env : dict;
  st_environ : dict
}.

Definition env_get (k : string) : io state string :=
  fun s =>
    match st_env s k with
    | Some v => ([], s, inr v)
    | None => ([], s, inl (KeyError k))
    end.

Definition env_set (k v : string) : io state unit :=
  fun s =>
    ([], {| st_self := st_self s;
            st_env := dict_set (st_env s) k v;
            st_environ := st_environ s |}, inr tt).

Definition environ_set (k v : string) : io state unit :=
  fun s =>
    ([], {| st_self := st_self s;
            st_env := st_env s;
            st_environ := dict_set (st_environ s) k v |}, inr tt).

(** [self._awkError = b] *)
Definition set_awkError (b : bool) : io state unit :=
  fun s =>
    ([], {| st_self :=
              {| _expectedPlots := _expectedPlots (st_self s);
                 _labels := _labels (st_self s);
                 _linkNames := _linkNames (st_self s);
                 _name := _name (st_self s);
                 _shortname := _shortname (st_self s);
                 _template_file := _template_file (st_self s);
                 _ncl := _ncl (st_self s);
                 _awkError := b;
                 _tailError := _tailError (st_self s) |};
            st_env := st_env s;
            st_environ := st_environ s |}, inr tt).

(** A command of [cmdList]: argument vector, base name of the output files,
    number of lines for [tail]. *)
Definition cmd : Type := (list string * string * string)%type.

Section Methods.

Local Open Scope io_scope.

Variable checkFile : string -> string -> exn + (bool * string).
(** The methods [check_prerequisites] and [name] of the base class
    [OceanDiagnosticPlot]. *)
Variable super_check_prerequisites : io state unit.
Variable name : io state string.
Variable os_chdir : string -> exn + unit.
Variable os_getcwd : exn + string.
Variable glob_glob : string -> list string.
Variable os_path_abspath : string -> string.
Variable open_ : string -> string -> exn + unit.
Variable subprocess_check_call :
  list string -> option string -> dict -> call_result.
Variable shutil_copy2 : string -> string -> exn + unit.

(** [subprocess.check_call(args, stdout=..., env=env)] inside a [try] with
    the clause [except subprocess.CalledProcessError]: the clause is entered
    on [Some returncode]; any other exception goes on. *)
Definition check_call (args : list string) (stdout : option string)
  : io state (option Z) :=
  fun s =>
    match subprocess_check_call args stdout (st_env s) with
    | Exit0 => ([CheckCall args stdout], s, inr None)
    | CalledProcessError returncode =>
        ([CheckCall args stdout], s, inr (Some returncode))
    | CallRaised e => ([CheckCall args stdout], s, inl e)
    end.

(** Lines 63 to 72 of [check_prerequisites]: the coupler version and the
    numbers of lines for [tail]. *)
Definition select_version : io state string :=
  let cplVersion := "cpl7b" in
  _ <- env_set "ntailht" "22" ;;
  _ <- environ_set "ntailht" "22" ;;
  _ <- env_set "ntailfw" "16" ;;
  _ <- environ_set "ntailfw" "16" ;;
  a <- env_get "TS_CPL" ;;
  c <- (if String.eqb "7" a then io_ret true
        else b <- env_get "TS_CPL" ;; io_ret (String.eqb "6" b)) ;;
  if (c : bool) then
    ts <- env_get "TS_CPL" ;;
    let cplVersion := "cpl" +:+ ts in
    _ <- env_set "ntailht" "21" ;;
    _ <- environ_set "ntailht" "21" ;;
    _ <- env_set "ntailfw" "16" ;;
    _ <- environ_set "ntailfw" "16" ;;
    io_ret cplVersion
  else io_ret cplVersion.

(** Lines 74 to 92: the two [awk] commands. *)
Definition build_commands (cplVersion : string) : io state (list cmd) :=
  let heatFile := "cplheatbudget" in
  let freshWaterFile := "cplfwbudget" in
  wd <- env_get "WORKDIR" ;;
  cplLogs <- perform (Glob (wd +:+ "/cpl.log.*"))
               (inr (glob_glob (wd +:+ "/cpl.log.*"))) ;;
  let cplLogsString := str_join " " cplLogs in
  tp <- env_get "TOOLPATH" ;;
  let heatPath :=
    os_path_abspath
      (tp +:+ "/process_" +:+ cplVersion +:+ "_logfiles_heat.awk") in
  tp' <- env_get "TOOLPATH" ;;
  let fwPath :=
    os_path_abspath
      (tp' +:+ "/process_" +:+ cplVersion +:+ "_logfiles_fw.awk") in
  y0 <- env_get "YEAR0" ;;
  y1 <- env_get "YEAR1" ;;
  let heatCmd :=
    str_split " "%char
      (heatPath +:+ " y0=" +:+ y0 +:+ " y1=" +:+ y1 +:+ " " +:+ cplLogsString) in
  y0' <- env_get "YEAR0" ;;
  y1' <- env_get "YEAR1" ;;
  let freshWaterCmd :=
    str_split " "%char
      (fwPath +:+ " y0=" +:+ y0' +:+ " y1=" +:+ y1' +:+ " " +:+ cplLogsString) in
  _ <- perform Getcwd os_getcwd ;;
  nh <- env_get "ntailht" ;;
  nf <- env_get "ntailfw" ;;
  io_ret [(heatCmd, heatFile, nh); (freshWaterCmd, freshWaterFile, nf)].

(** Body of [for cmd in cmdList] (lines 94 to 116). *)
Definition run_cmd (c : cmd) : io state unit :=
  let '(cmd0, cmd1, cmd2) := c in
  let outFile := cmd1 +:+ ".txt" in
  with_open open_ outFile "w"
    (awk <- check_call cmd0 (Some outFile) ;;
     match awk with
     | None =>
         '(rc, err_msg) <-
           perform (CheckFile outFile "read") (checkFile outFile "read") ;;
         if (rc : bool) then
           let ascFile := cmd1 +:+ ".asc" in
           with_open open_ ascFile "w"
             (let tailCmd :=
                str_split " "%char
                  ("tail -" +:+ cmd2 +:+ " " +:+ cmd1 +:+ ".txt") in
              tail <- check_call tailCmd (Some ascFile) ;;
              match tail with
              | None => io_ret tt
              | Some returncode => io_ret tt
              end)
         else io_ret tt
     | Some returncode => set_awkError true
     end).

Definition check_prerequisites : io state unit :=
  _ <- super_check_prerequisites ;;
  wd <- env_get "WORKDIR" ;;
  _ <- perform (Chdir wd) (os_chdir wd) ;;
  cplVersion <- select_version ;;
  cmdList <- build_commands cplVersion ;;
  io_for_each cmdList run_cmd.

(** Body of [for ncl in self._ncl] (lines 128 to 145).  The handler of
    [subprocess.CalledProcessError] evaluates [self.name()] and then the name
    [nclfile], which is bound nowhere in the module. *)
Definition plot_ncl (ncl : string) : io state unit :=
  ts <- env_get "TS_CPL" ;;
  let nclPlotFile := "cpl" +:+ ts +:+ "_" +:+ ncl in
  np <- env_get "NCLPATH" ;;
  wd <- env_get "WORKDIR" ;;
  _ <- perform (Copy2 (np +:+ "/" +:+ nclPlotFile) (wd +:+ "/" +:+ nclPlotFile))
         (shutil_copy2 (np +:+ "/" +:+ nclPlotFile)
            (wd +:+ "/" +:+ nclPlotFile)) ;;
  wd' <- env_get "WORKDIR" ;;
  let nclFile := wd' +:+ "/" +:+ nclPlotFile in
  '(rc, err_msg) <-
    perform (CheckFile nclFile "read") (checkFile nclFile "read") ;;
  if (rc : bool) then
    r <- check_call ["ncl"; nclFile] None ;;
    match r with
    | None => io_ret tt
    | Some returncode =>
        _ <- name ;;
        io_raise (NameError "nclfile")
    end
  else io_ret tt.

Definition generate_plots : io state unit :=
  wd <- env_get "WORKDIR" ;;
  _ <- perform (Chdir wd) (os_chdir wd) ;;
  ncls <- (fun s => ([], s, inr (_ncl (st_self s)))) ;;
  io_for_each ncls plot_ncl.

End Methods.

End CplLog.

(** [CplLog_timeseries()] *)
Module CplLog_timeseries.

Definition __init__ : CplLog.t := {|
  CplLog._expectedPlots := CplLog._expectedPlots CplLog.__init__;
  CplLog._labels := CplLog._labels CplLog.__init__;
  CplLog._linkNames := CplLog._linkNames CplLog.__init__;
  CplLog._name := CplLog._name CplLog.__init__;
  CplLog._shortname := CplLog._shortname CplLog.__init__;
  CplLog._template_file := CplLog._template_file CplLog.__init__;
  CplLog._ncl := ["log_timeseries_heat.ncl"; "log_timeseries_fw.ncl"];
  CplLog._awkError := CplLog._awkError CplLog.__init__;
  CplLog._tailError := CplLog._tailError CplLog.__init__
|}.

End CplLog_timeseries.

(** ** western_boundary.py *)

Module WesternBoundary.

Record t : Type := {
  _expectedPlots : list string;
  _name : string;
  _shortname : string;
  _template_file : string
}.

(** [WesternBoundary()] *)
Definition __init__ : t := {|
  _expectedPlots := ["DWBC"];
  _name := "Western Boundary Currents";
  _shortname := "DWBC";
  _template_file := "western_boundary.tmpl"
|}.

Record templateVars : Type := {
  title : string;
  cols : nat;
  plot_table_var : list (list string);
  imgFormat_var : string
}.

Definition num_cols : nat := 1.

(** [s.replace('\n', '')] *)
Fixpoint remove_newlines (s : string) : string :=
  match s with
  | EmptyString => EmptyString
  | String c s' =>
      if Ascii.eqb c (Ascii.ascii_of_nat 10) then remove_newlines s'
      else String c (remove_newlines s')
  end.

Section WithCollaborators.

Variable checkFile : string -> string -> exn + (bool * string).
Variable render : string -> string -> templateVars -> exn + string.

Variable self : t.
Variables workdir imgFormat : string.

(** Body of [for plot_file in self._expectedPlots]. *)
Definition plot_body (plot_list : list string) (plot_file : string)
  : run (list string) :=
  let img_file := plot_file +:+ "." +:+ imgFormat in
  '(rc, err_msg) <- call_checkFile checkFile (workdir +:+ "/" +:+ img_file) "read" ;;
  if negb rc then ret (plot_list ++ [plot_file +:+ " - Error"])
  else ret (plot_list ++ [plot_file]).

(** The value of [plot_table] after [plot_table.append(plot_list)]. *)
Definition plot_table : run (list (list string)) :=
  let plot_table := [] in
  plot_list <- for_each (_expectedPlots self) plot_body [] ;;
  ret (plot_table ++ [plot_list]).

Definition _create_html (templatePath : string) : run string :=
  plot_table <- plot_table ;;
  let templateVars := {|
    title := _name self;
    cols := num_cols;
    plot_table_var := plot_table;
    imgFormat_var := imgFormat
  |} in
  html <- ([], render templatePath (_template_file self) templateVars) ;;
  ret (remove_newlines html).

End WithCollaborators.

End WesternBoundary.

(** ** Vocabulary of the statements *)

(** The checker answers like the pure query [fileExists] and never raises. *)
Definition answers (checkFile : string -> string -> exn + (bool * string))
  (fileExists : string -> bool) : Prop :=
  forall path, exists err_msg,
    checkFile path "read" = inr (fileExists path, err_msg).

(** Two outcomes of the checker that a caller looking at [rc] only cannot
    tell apart. *)
Definition same_answer (r1 r2 : exn + (bool * string)) : Prop :=
  match r1, r2 with
  | inl e1, inl e2 => e1 = e2
  | inr (rc1, _), inr (rc2, _) => rc1 = rc2
  | _, _ => False
  end.

(** The file extension [CplLog._create_html] picks for a link name, if the
    link name selects one of its two branches. *)
Definition extension (imgFormat k : string) : option string :=
  if contains "timeseries" k then Some imgFormat
  else if contains "table" k then Some "asc"
  else None.

(** A link name that selects a branch. *)
Definition recognised (k : string) : Prop :=
  contains "timeseries" k = true \/ contains "table" k = true.

(** What a cell shows for the candidate file name [f]. *)
Definition shown (rc : bool) (f : string) : string :=
  if rc then f else f +:+ " - Error".

Definition label_tuple (label : string) : CplLog.plot_tuple :=
  (0, "label", label +:+ ":").

(** Labels, artifacts and link names of equal length. *)
Definition well_formed (self : CplLog.t) : Prop :=
  length (CplLog._labels self) = length (CplLog._expectedPlots self) /\
  length (CplLog._expectedPlots self) = length (CplLog._linkNames self).

(** The cells iteration [j] of the inner loop of [CplLog._create_html]
    contributes, and the cells of both iterations. *)
Definition column (checkFile : string -> string -> exn + (bool * string))
  (self : CplLog.t) (workdir imgFormat : string) (j : nat)
  : run (list CplLog.plot_tuple) :=
  CplLog.column_body checkFile self workdir imgFormat
    (CplLog._expectedPlots self) [] j.

Definition columns (checkFile : string -> string -> exn + (bool * string))
  (self : CplLog.t) (workdir imgFormat : string)
  : run (list CplLog.plot_tuple) :=
  for_each (range (CplLog.num_cols - 1))
    (CplLog.column_body checkFile self workdir imgFormat
       (CplLog._expectedPlots self)) [].

(** A computation that hides no fault of the checker: if one of the paths it
    asked about makes the checker raise [e], the computation ends in [e]. *)
Definition faithful {A : Type}
  (checkFile : string -> string -> exn + (bool * string)) (m : run A) : Prop :=
  forall path e,
    In path (fst m) -> checkFile path "read" = inl e -> snd m = inl e.

(** ** Vocabulary for the methods that act on the outside world *)

(** The outcome [x] of a computation, preceded by the events [t]. *)
Definition after {St A : Type} (t : list event)
  (x : list event * St * (exn + A)) : list event * St * (exn + A) :=
  match x with
  | (t', s, r) => (t ++ t', s, r)
  end.

(** The test of line 69 on the value of [env['TS_CPL']]. *)
Definition uses_cpl67 (ts : string) : bool :=
  String.eqb "7" ts || String.eqb "6" ts.

(** The state after [env] and [os.environ] have received the two numbers of
    lines, [ht] for the heat budget and "16" for the freshwater budget. *)
Definition with_windows (ht : string) (s : CplLog.state) : CplLog.state := {|
  CplLog.st_self := CplLog.st_self s;
  CplLog.st_env :=
    dict_set (dict_set (CplLog.st_env s) "ntailht" ht) "ntailfw" "16";
  CplLog.st_environ :=
    dict_set (dict_set (CplLog.st_environ s) "ntailht" ht) "ntailfw" "16"
|}.

(** The state after [self._awkError = True]. *)
Definition awk_failed (s : CplLog.state) : CplLog.state :=
  snd (fst (CplLog.set_awkError true s)).

(** The character [c] occurs in [s]. *)
Fixpoint occurs (c : Ascii.ascii) (s : string) : bool :=
  match s with
  | EmptyString => false
  | String c' s' => Ascii.eqb c' c || occurs c s'
  end.

(** The line feed. *)
Definition newline : Ascii.ascii := Ascii.ascii_of_nat 10.

(** Iteration [j] of the inner loop of [CplLog._create_html] subscripts a
    list out of range: there is no link name [j], or link name [j] selects a
    branch and there is no artifact [j]. *)
Definition subscript_fails (self : CplLog.t) (j : nat) : Prop :=
  match nth_error (CplLog._linkNames self) j with
  | None => True
  | Some k => recognised k /\ length (CplLog._expectedPlots self) <= j
  end.

(** The command line formatted at lines 87 and 88. *)
Definition command_line (script y0 y1 : string) (logs : list string)
  : string :=
  script +:+ " y0=" +:+ y0 +:+ " y1=" +:+ y1 +:+ " " +:+ str_join " " logs.

(** The arguments that the log files contribute to a command. *)
Definition log_arguments (logs : list string) : list string :=
  match logs with
  | [] => [EmptyString]
  | _ :: _ => concat (map (str_split " "%char) logs)
  end.

(** The [tail] command of line 105. *)
Definition tail_command (lines base : string) : list string :=
  str_split " "%char ("tail -" +:+ lines +:+ " " +:+ base +:+ ".txt").

(** The [awk] command of [c] exits with a non-zero status. *)
Definition awk_fails
  (subprocess_check_call : list string -> option string -> dict -> call_result)
  (env : dict) (c : CplLog.cmd) : bool :=
  match subprocess_check_call (fst (fst c)) (Some (snd (fst c) +:+ ".txt")) env
  with
  | CalledProcessError _ => true
  | _ => false
  end.

(** ** Objects and checkers used in the concrete runs *)

(** A [CplLog] whose three lists have been replaced. *)
Definition cpllog_with (labels plots linkNames : list string) : CplLog.t := {|
  CplLog._expectedPlots := plots;
  CplLog._labels := labels;
  CplLog._linkNames := linkNames;
  CplLog._name := CplLog._name CplLog.__init__;
  CplLog._shortname := CplLog._shortname CplLog.__init__;
  CplLog._template_file := CplLog._template_file CplLog.__init__;
  CplLog._ncl := CplLog._ncl CplLog.__init__;
  CplLog._awkError := CplLog._awkError CplLog.__init__;
  CplLog._tailError := CplLog._tailError CplLog.__init__
|}.

Definition three_columns : CplLog.t :=
  cpllog_with ["Heat"; "Freshwater"; "Salt"]
    ["cplheatbudget"; "cplfwbudget"; "cplsaltbudget"]
    ["timeseries"; "table"; "table"].

Definition one_column : CplLog.t :=
  cpllog_with ["Heat"] ["cplheatbudget"] ["timeseries"].

Definition extra_link : CplLog.t :=
  cpllog_with ["Heat"; "Freshwater"] ["cplheatbudget"; "cplfwbudget"]
    ["timeseries"; "table"; "table"].

Definition swapped_links : CplLog.t :=
  cpllog_with ["Heat"; "Freshwater"] ["cplheatbudget"; "cplfwbudget"]
    ["table"; "timeseries"].

Definition no_artifacts : CplLog.t :=
  cpllog_with ["Heat"; "Freshwater"] [] ["timeseries"; "table"].

(** Every file is there. *)
Definition all_present : string -> string -> exn + (bool * string) :=
  fun _ _ => inr (true, "").

(** No file is there. *)
Definition all_missing : string -> string -> exn + (bool * string) :=
  fun path _ => inr (false, path +:+ " does not exist").

(** The directory holds the one file [present]. *)
Definition only_file (present : string)
  : string -> string -> exn + (bool * string) :=
  fun path _ =>
    if String.eqb path present then inr (true, "")
    else inr (false, path +:+ " does not exist").

(** The checker fails on [locked] and finds every other file. *)
Definition denied (locked : string)
  : string -> string -> exn + (bool * string) :=
  fun path _ =>
    if String.eqb path locked then inl (OtherError "permission denied")
    else inr (true, "").

(** A dictionary given by its items. *)
Definition dict_of (items : list (string * string)) : dict :=
  fold_right (fun kv d => dict_set d (fst kv) (snd kv)) (fun _ => None) items.

Definition example_env (ts_cpl : string) : dict :=
  dict_of [("WORKDIR", "/w"); ("TS_CPL", ts_cpl); ("TOOLPATH", "/tools");
           ("NCLPATH", "/ncl"); ("YEAR0", "1"); ("YEAR1", "20")].

Definition example_state (self : CplLog.t) (ts_cpl : string) : CplLog.state := {|
  CplLog.st_self := self;
  CplLog.st_env := example_env ts_cpl;
  CplLog.st_environ := dict_of []
|}.

Definition two_logs : string -> list string :=
  fun _ => ["/w/cpl.log.1"; "/w/cpl.log.2"].

Definition no_logs : string -> list string := fun _ => [].

(** Every file opens. *)
Definition open_ok : string -> string -> exn + unit := fun _ _ => inr tt.

(** Every program exits with status 0, except that a call which has
    [marked] among its arguments or as its standard output ends in [r]. *)
Definition call_answers (marked : string) (r : call_result)
  : list string -> option string -> dict -> call_result :=
  fun args stdout _ =>
    if existsb (String.eqb marked) args then r
    else
      match stdout with
      | Some out => if String.eqb marked out then r else Exit0
      | None => Exit0
      end.

(** A base class whose methods do nothing but return. *)
Definition super_ok : io CplLog.state unit := io_ret tt.

Definition name_ok : io CplLog.state string :=
  fun s => ([], s, inr (CplLog._name (CplLog.st_self s))).

Definition chdir_ok : string -> exn + unit := fun _ => inr tt.

Definition copy_ok : string -> string -> exn + unit := fun _ _ => inr tt.

(** ** Sanity checks on concrete runs *)

Example contains_substring : contains "table" "a_table_link" = true.
Proof. reflexivity. Qed.

Example contains_absent : contains "timeseries" "table" = false.
Proof. reflexivity. Qed.

Example cpllog_all_present :
  CplLog.plot_table (fun _ _ => inr (true, "")) CplLog.__init__ "/w" "png" =
  (["/w/cplheatbudget.png"; "/w/cplfwbudget.asc";
    "/w/cplheatbudget.png"; "/w/cplfwbudget.asc"],
   inr [[(0, "label", "Heat:"); (1, "timeseries", "cplheatbudget.png");
         (2, "table", "cplfwbudget.asc")];
        [(0, "label", "Freshwater:"); (1, "timeseries", "cplheatbudget.png");
         (2, "table", "cplfwbudget.asc")]]).
Proof. reflexivity. Qed.

(** Swapping the two link names swaps the extensions and nothing else. *)
Example cpllog_swapped_links :
  snd (CplLog.plot_table all_present swapped_links "/w" "png") =
  inr [[(0, "label", "Heat:"); (1, "table", "cplheatbudget.asc");
        (2, "timeseries", "cplfwbudget.png")];
       [(0, "label", "Freshwater:"); (1, "table", "cplheatbudget.asc");
        (2, "timeseries", "cplfwbudget.png")]].
Proof. reflexivity. Qed.

(** A link name that contains neither word contributes no cell. *)
Example cpllog_unknown_link :
  snd (CplLog.plot_table all_present
         (cpllog_with ["Heat"] ["cplheatbudget"; "cplfwbudget"]
            ["image"; "table"]) "/w" "png") =
  inr [[(0, "label", "Heat:"); (2, "table", "cplfwbudget.asc")]].
Proof. reflexivity. Qed.

Example western_boundary_missing :
  WesternBoundary.plot_table (fun _ _ => inr (false, "no such file"))
    WesternBoundary.__init__ "/w" "png" =
  (["/w/DWBC.png"], inr [["DWBC - Error"]]).
Proof. reflexivity. Qed.

(** ** Laws of computations and loops *)

Lemma bind_ret_l {A B : Type} (a : A) (k : A -> run B) :
  bind (ret a) k = k a.
Proof. unfold bind, ret. destruct (k a). reflexivity. Qed.

Lemma bind_ret_r {A : Type} (m : run A) : bind m ret = m.
Proof.
  destruct m as [q [e | a]]; simpl; [reflexivity |].
  now rewrite app_nil_r.
Qed.

Lemma bind_assoc {A B C : Type} (m : run A) (f : A -> run B) (g : B -> run C) :
  bind (bind m f) g = bind m (fun a => bind (f a) g).
Proof.
  destruct m as [q [e | a]]; simpl; [reflexivity |].
  destruct (f a) as [q1 [e1 | b]]; simpl; [reflexivity |].
  destruct (g b) as [q2 r2]. now rewrite app_assoc.
Qed.

Lemma bind_ext {A B : Type} (m : run A) (f g : A -> run B) :
  (forall a, f a = g a) -> bind m f = bind m g.
Proof.
  intros H. destruct m as [q [e | a]]; simpl; [reflexivity |].
  now rewrite H.
Qed.

Lemma for_each_ext {St X : Type} (xs : list X) (f g : St -> X -> run St) :
  (forall s x, f s x = g s x) ->
  forall s, for_each xs f s = for_each xs g s.
Proof.
  intros H. induction xs as [| x xs IH]; intros s; simpl; [reflexivity |].
  rewrite H. now apply bind_ext.
Qed.

(** The idiom [for i in range(len(l)): ... l[i] ...] visits the elements of
    [l] in order and never raises on the subscript. *)
Lemma for_each_seq_getitem {St X : Type} (g : St -> X -> run St)
  (pre l : list X) :
  forall s,
    for_each (seq (length pre) (length l))
      (fun s i => x <- getitem (pre ++ l) i ;; g s x) s
    = for_each l g s.
Proof.
  revert pre. induction l as [| x l IH]; intros pre s;
    cbn [for_each seq length]; [reflexivity |].
  unfold getitem at 1.
  rewrite nth_error_app2, Nat.sub_diag by lia. cbn [nth_error].
  rewrite bind_ret_l. apply bind_ext. intros s'.
  specialize (IH (pre ++ [x]) s').
  rewrite length_app, Nat.add_1_r, <- app_assoc in IH. exact IH.
Qed.

Lemma for_each_range_getitem {St X : Type} (g : St -> X -> run St)
  (l : list X) (s : St) :
  for_each (range (length l)) (fun s i => x <- getitem l i ;; g s x) s
  = for_each l g s.
Proof. exact (for_each_seq_getitem g [] l s). Qed.

(** A loop whose body only appends to its state can be run from the empty
    list and its output appended afterwards. *)
Lemma for_each_frame {C X : Type} (body : list C -> X -> run (list C))
  (xs : list X) :
  (forall s x, body s x = (cs <- body [] x ;; ret (s ++ cs))) ->
  forall s, for_each xs body s = (cs <- for_each xs body [] ;; ret (s ++ cs)).
Proof.
  intros H. induction xs as [| x xs IH]; intros s; cbn [for_each].
  - rewrite bind_ret_l, app_nil_r. reflexivity.
  - rewrite (H s x), !bind_assoc. apply bind_ext. intros cs.
    rewrite bind_ret_l, (IH (s ++ cs)), (IH cs), bind_assoc.
    apply bind_ext. intros cs'. rewrite bind_ret_l, app_assoc. reflexivity.
Qed.

(** A loop that runs the same computation [m] for every element. *)
Lemma for_each_const {C X R : Type} (m : run C) (f : X -> C -> R)
  (xs : list X) :
  forall s,
    for_each xs (fun s x => c <- m ;; ret (s ++ [f x c])) s =
    match xs with
    | [] => ret s
    | _ :: _ =>
        match m with
        | (q, inl e) => (q, inl e)
        | (q, inr c) =>
            (concat (map (fun _ => q) xs), inr (s ++ map (fun x => f x c) xs))
        end
    end.
Proof.
  destruct m as [q [e | c]].
  - intros s. destruct xs; reflexivity.
  - set (body := fun s x => c <- (q, inr c) ;; ret (s ++ [f x c])).
    induction xs as [| x xs IH]; intros s; [reflexivity |].
    cbn [for_each]. unfold body at 1. cbn [bind ret].
    rewrite app_nil_r, (IH (s ++ [f x c])).
    destruct xs as [| x' xs'].
    + cbn. now rewrite app_nil_r.
    + cbn [map concat]. rewrite <- app_assoc. reflexivity.
Qed.

(** ** The coupler-log table in closed form *)

Section CplLogFacts.

Variable checkFile : string -> string -> exn + (bool * string).
Variable self : CplLog.t.
Variables workdir imgFormat : string.

Let labels := CplLog._labels self.
Let plots := CplLog._expectedPlots self.
Let linkNames := CplLog._linkNames self.

Lemma column_body_frame (plot_list : list string)
  (s : list CplLog.plot_tuple) (j : nat) :
  CplLog.column_body checkFile self workdir imgFormat plot_list s j =
  (cs <- CplLog.column_body checkFile self workdir imgFormat plot_list [] j ;;
   ret (s ++ cs)).
Proof.
  unfold CplLog.column_body, getitem, call_checkFile.
  destruct (nth_error (CplLog._linkNames self) j) as [k |]; [| reflexivity].
  rewrite !bind_ret_l.
  destruct (contains "timeseries" k); [| destruct (contains "table" k)];
    try (destruct (nth_error plot_list j) as [p |]; [| reflexivity];
         rewrite !bind_ret_l;
         match goal with
         | |- context [checkFile ?a ?b] =>
             destruct (checkFile a b) as [e | [rc msg]]
         end; [reflexivity |]; cbn; reflexivity).
  rewrite bind_ret_l, app_nil_r. reflexivity.
Qed.

(** One iteration of the inner loop, with the branches of the source
    merged through [extension]. *)
Lemma column_eq (j : nat) :
  column checkFile self workdir imgFormat j =
  match nth_error linkNames j with
  | None => raise IndexError
  | Some k =>
      match extension imgFormat k with
      | None => ret []
      | Some x =>
          match nth_error plots j with
          | None => raise IndexError
          | Some p =>
              let f := p +:+ "." +:+ x in
              let path := workdir +:+ "/" +:+ f in
              match checkFile path "read" with
              | inl e => ([path], inl e)
              | inr (rc, _) => ([path], inr [(j + 1, k, shown rc f)])
              end
          end
      end
  end.
Proof.
  unfold column, CplLog.column_body, getitem, call_checkFile, extension.
  subst linkNames plots.
  destruct (nth_error (CplLog._linkNames self) j) as [k |]; [| reflexivity].
  rewrite !bind_ret_l.
  destruct (contains "timeseries" k); [| destruct (contains "table" k)];
    try reflexivity;
    (destruct (nth_error (CplLog._expectedPlots self) j) as [p |];
     [| reflexivity]);
    rewrite !bind_ret_l; cbv zeta;
    match goal with
    | |- context [checkFile ?a ?b] =>
        destruct (checkFile a b) as [e | [[|] msg]]
    end; reflexivity.
Qed.

Lemma columns_eq :
  columns checkFile self workdir imgFormat =
  (cs0 <- column checkFile self workdir imgFormat 0 ;;
   cs1 <- column checkFile self workdir imgFormat 1 ;;
   ret (cs0 ++ cs1)).
Proof.
  unfold columns, column. cbn [CplLog.num_cols Nat.sub range seq for_each].
  apply bind_ext. intros cs0.
  rewrite bind_ret_r. apply column_body_frame.
Qed.

Lemma plot_table_loop :
  CplLog.plot_table checkFile self workdir imgFormat =
  for_each labels
    (fun table label =>
       cs <- columns checkFile self workdir imgFormat ;;
       ret (table ++ [label_tuple label :: cs])) [].
Proof.
  unfold CplLog.plot_table. subst labels.
  rewrite <- (for_each_range_getitem
                (fun table label =>
                   cs <- columns checkFile self workdir imgFormat ;;
                   ret (table ++ [label_tuple label :: cs]))
                (CplLog._labels self) []).
  apply for_each_ext.
  intros table i. unfold CplLog.row_body. apply bind_ext. intros label.
  rewrite for_each_frame by (intros; apply column_body_frame).
  rewrite bind_assoc. apply bind_ext. intros cs.
  rewrite bind_ret_l. reflexivity.
Qed.

Lemma plot_table_eq :
  CplLog.plot_table checkFile self workdir imgFormat =
  match labels with
  | [] => ret []
  | _ :: _ =>
      match columns checkFile self workdir imgFormat with
      | (q, inl e) => (q, inl e)
      | (q, inr cs) =>
          (concat (map (fun _ => q) labels),
           inr (map (fun label => label_tuple label :: cs) labels))
      end
  end.
Proof.
  rewrite plot_table_loop.
  exact (for_each_const (columns checkFile self workdir imgFormat)
           (fun label cs => label_tuple label :: cs) labels []).
Qed.

(** What a successful iteration of the inner loop has done. *)
Lemma column_inv (j : nat) (q : list string) (cs : list CplLog.plot_tuple) :
  column checkFile self workdir imgFormat j = (q, inr cs) ->
  exists k, nth_error linkNames j = Some k /\
    ((extension imgFormat k = None /\ q = [] /\ cs = []) \/
     (exists x p rc msg,
        extension imgFormat k = Some x /\
        nth_error plots j = Some p /\
        checkFile (workdir +:+ "/" +:+ p +:+ "." +:+ x) "read" = inr (rc, msg) /\
        q = [workdir +:+ "/" +:+ p +:+ "." +:+ x] /\
        cs = [(j + 1, k, shown rc (p +:+ "." +:+ x))])).
Proof.
  rewrite column_eq.
  destruct (nth_error linkNames j) as [k |]; [| discriminate].
  intros H. exists k. split; [reflexivity |].
  destruct (extension imgFormat k) as [x |].
  - right. destruct (nth_error plots j) as [p |]; [| discriminate].
    cbv zeta in H.
    destruct (checkFile (workdir +:+ "/" +:+ p +:+ "." +:+ x) "read")
      as [e | [rc msg]] eqn:Hc; [discriminate |].
    injection H as <- <-. exists x, p, rc, msg. auto.
  - left. injection H as <- <-. auto.
Qed.

Lemma columns_inv (q : list string) (cs : list CplLog.plot_tuple) :
  columns checkFile self workdir imgFormat = (q, inr cs) ->
  exists q0 cs0 q1 cs1,
    column checkFile self workdir imgFormat 0 = (q0, inr cs0) /\
    column checkFile self workdir imgFormat 1 = (q1, inr cs1) /\
    q = q0 ++ q1 /\ cs = cs0 ++ cs1.
Proof.
  rewrite columns_eq.
  destruct (column checkFile self workdir imgFormat 0) as [q0 [e0 | cs0]];
    [discriminate |].
  destruct (column checkFile self workdir imgFormat 1) as [q1 [e1 | cs1]];
    [discriminate |].
  cbn. rewrite app_nil_r. intros H. injection H as <- <-.
  exists q0, cs0, q1, cs1. auto.
Qed.

(** Every row of a returned table is its label cell followed by the same
    cells, those of one run of the inner loop. *)
Lemma table_inv (table : list (list CplLog.plot_tuple)) :
  snd (CplLog.plot_table checkFile self workdir imgFormat) = inr table ->
  exists cs,
    table = map (fun label => label_tuple label :: cs) labels /\
    (labels <> [] ->
     exists q,
       columns checkFile self workdir imgFormat = (q, inr cs) /\
       incl q (fst (CplLog.plot_table checkFile self workdir imgFormat))).
Proof.
  rewrite plot_table_eq. destruct labels as [| l ls] eqn:Hl.
  - cbn. intros H. injection H as <-. exists []. split; [reflexivity |].
    intros Hne. now contradiction Hne.
  - destruct (columns checkFile self workdir imgFormat) as [q [e | cs]];
      [discriminate |].
    cbn [snd fst]. intros H. injection H as <-. exists cs.
    split; [reflexivity |]. intros _. exists q. split; [reflexivity |].
    cbn [map concat]. apply incl_appl, incl_refl.
Qed.

Lemma cell_inv (table : list (list CplLog.plot_tuple))
  (row : list CplLog.plot_tuple) (c : nat) (k content : string) :
  snd (CplLog.plot_table checkFile self workdir imgFormat) = inr table ->
  In row table -> In (c, k, content) row ->
  (exists label, In label labels /\ (c, k, content) = label_tuple label) \/
  (exists j x p rc msg,
     c = j + 1 /\ j < CplLog.num_cols - 1 /\
     nth_error linkNames j = Some k /\
     extension imgFormat k = Some x /\
     nth_error plots j = Some p /\
     checkFile (workdir +:+ "/" +:+ p +:+ "." +:+ x) "read" = inr (rc, msg) /\
     In (workdir +:+ "/" +:+ p +:+ "." +:+ x)
       (fst (CplLog.plot_table checkFile self workdir imgFormat)) /\
     content = shown rc (p +:+ "." +:+ x)).
Proof.
  intros Ht Hrow Hcell.
  destruct (table_inv table Ht) as (cs & -> & Hcols).
  apply in_map_iff in Hrow. destruct Hrow as (label & <- & Hlabel).
  destruct Hcell as [Hcell | Hcell].
  { left. exists label. auto. }
  right.
  destruct Hcols as (q & Hcols & Hq).
  { intros Hnil. rewrite Hnil in Hlabel. exact Hlabel. }
  apply columns_inv in Hcols.
  destruct Hcols as (q0 & cs0 & q1 & cs1 & H0 & H1 & -> & ->).
  assert (Hone : forall j qj csj,
             j < CplLog.num_cols - 1 ->
             column checkFile self workdir imgFormat j = (qj, inr csj) ->
             incl qj (q0 ++ q1) -> In (c, k, content) csj ->
             exists j x p rc msg,
               c = j + 1 /\ j < CplLog.num_cols - 1 /\
               nth_error linkNames j = Some k /\
               extension imgFormat k = Some x /\
               nth_error plots j = Some p /\
               checkFile (workdir +:+ "/" +:+ p +:+ "." +:+ x) "read"
                 = inr (rc, msg) /\
               In (workdir +:+ "/" +:+ p +:+ "." +:+ x)
                 (fst (CplLog.plot_table checkFile self workdir imgFormat)) /\
               content = shown rc (p +:+ "." +:+ x)).
  { intros j qj csj Hj Hcol Hincl Hin.
    apply column_inv in Hcol.
    destruct Hcol as (k' & Hk & [(_ & _ & ->) | (x & p & rc & msg & Hx & Hp & Hc & -> & ->)]).
    - destruct Hin.
    - destruct Hin as [Heq | []]. injection Heq as <- <- <-.
      exists j, x, p, rc, msg. repeat split; auto.
      apply Hq, Hincl. now left. }
  apply in_app_or in Hcell. destruct Hcell as [Hin | Hin].
  - apply (Hone 0 q0 cs0);
      [unfold CplLog.num_cols; lia | exact H0 | apply incl_appl, incl_refl
      | exact Hin].
  - apply (Hone 1 q1 cs1);
      [unfold CplLog.num_cols; lia | exact H1 | apply incl_appr, incl_refl
      | exact Hin].
Qed.

(** With a checker that never raises, an iteration fails on a subscript
    only. *)
Lemma column_answers (fileExists : string -> bool) (j : nat) :
  answers checkFile fileExists ->
  column checkFile self workdir imgFormat j =
  match nth_error linkNames j with
  | None => raise IndexError
  | Some k =>
      match extension imgFormat k with
      | None => ret []
      | Some x =>
          match nth_error plots j with
          | None => raise IndexError
          | Some p =>
              let f := p +:+ "." +:+ x in
              let path := workdir +:+ "/" +:+ f in
              ([path], inr [(j + 1, k, shown (fileExists path) f)])
          end
      end
  end.
Proof.
  intros Ha. rewrite column_eq.
  destruct (nth_error linkNames j) as [k |]; [| reflexivity].
  destruct (extension imgFormat k) as [x |]; [| reflexivity].
  destruct (nth_error plots j) as [p |]; [| reflexivity].
  cbv zeta. destruct (Ha (workdir +:+ "/" +:+ p +:+ "." +:+ x)) as [msg ->].
  reflexivity.
Qed.

End CplLogFacts.

Lemma recognised_extension (imgFormat k : string) :
  recognised k -> exists x, extension imgFormat k = Some x.
Proof.
  unfold recognised, extension. intros [H | H].
  - rewrite H. eauto.
  - destruct (contains "timeseries" k); [eauto |]. rewrite H. eauto.
Qed.

(** Two checkers that never raise give cells that differ in content only. *)
Lemma column_same_heads (checkFile1 checkFile2 : string -> string -> exn + (bool * string))
  (fileExists1 fileExists2 : string -> bool) (self : CplLog.t)
  (workdir imgFormat : string) (j : nat) :
  answers checkFile1 fileExists1 -> answers checkFile2 fileExists2 ->
  j < length (CplLog._linkNames self) ->
  j < length (CplLog._expectedPlots self) ->
  exists q1 cs1 q2 cs2,
    column checkFile1 self workdir imgFormat j = (q1, inr cs1) /\
    column checkFile2 self workdir imgFormat j = (q2, inr cs2) /\
    map fst cs1 = map fst cs2.
Proof.
  intros H1 H2 Hk Hp.
  rewrite (column_answers _ _ _ _ fileExists1 j H1).
  rewrite (column_answers _ _ _ _ fileExists2 j H2).
  apply nth_error_Some in Hk, Hp.
  destruct (nth_error (CplLog._linkNames self) j) as [k |]; [| congruence].
  destruct (nth_error (CplLog._expectedPlots self) j) as [p |]; [| congruence].
  destruct (extension imgFormat k) as [x |]; cbv zeta; unfold ret;
    do 4 eexists; repeat split; reflexivity.
Qed.

Lemma columns_same_heads (checkFile1 checkFile2 : string -> string -> exn + (bool * string))
  (fileExists1 fileExists2 : string -> bool) (self : CplLog.t)
  (workdir imgFormat : string) :
  answers checkFile1 fileExists1 -> answers checkFile2 fileExists2 ->
  CplLog.num_cols - 1 <= length (CplLog._linkNames self) ->
  CplLog.num_cols - 1 <= length (CplLog._expectedPlots self) ->
  exists q1 cs1 q2 cs2,
    columns checkFile1 self workdir imgFormat = (q1, inr cs1) /\
    columns checkFile2 self workdir imgFormat = (q2, inr cs2) /\
    map fst cs1 = map fst cs2.
Proof.
  unfold CplLog.num_cols. intros H1 H2 Hk Hp.
  destruct (column_same_heads _ _ _ _ self workdir imgFormat 0 H1 H2)
    as (qa & ca & qb & cb & Ea & Eb & Eab); [lia | lia |].
  destruct (column_same_heads _ _ _ _ self workdir imgFormat 1 H1 H2)
    as (qc & cc & qd & cd & Ec & Ed & Ecd); [lia | lia |].
  rewrite !columns_eq, Ea, Eb, Ec, Ed. cbn.
  do 4 eexists. split; [reflexivity | split; [reflexivity |]].
  unfold CplLog.plot_tuple in *. rewrite !map_app, Eab, Ecd. reflexivity.
Qed.

(** ** The western-boundary table in closed form *)

Lemma wb_plot_list_answers (checkFile : string -> string -> exn + (bool * string))
  (fileExists : string -> bool) (workdir imgFormat : string)
  (plots acc : list string) :
  answers checkFile fileExists ->
  for_each plots (WesternBoundary.plot_body checkFile workdir imgFormat) acc =
  (map (fun p => workdir +:+ "/" +:+ p +:+ "." +:+ imgFormat) plots,
   inr (acc ++
        map (fun p =>
               shown (fileExists (workdir +:+ "/" +:+ p +:+ "." +:+ imgFormat)) p)
          plots)).
Proof.
  intros Ha. revert acc.
  induction plots as [| p plots IH]; intros acc; cbn [for_each map].
  - now rewrite app_nil_r.
  - unfold WesternBoundary.plot_body at 1, call_checkFile. cbv zeta.
    destruct (Ha (workdir +:+ "/" +:+ p +:+ "." +:+ imgFormat)) as [msg ->].
    destruct (fileExists (workdir +:+ "/" +:+ p +:+ "." +:+ imgFormat));
      cbn [bind negb ret shown]; rewrite IH; cbn [app];
      rewrite <- app_assoc; reflexivity.
Qed.

Lemma wb_plot_table_answers (checkFile : string -> string -> exn + (bool * string))
  (fileExists : string -> bool) (wb : WesternBoundary.t)
  (workdir imgFormat : string) :
  answers checkFile fileExists ->
  WesternBoundary.plot_table checkFile wb workdir imgFormat =
  (map (fun p => workdir +:+ "/" +:+ p +:+ "." +:+ imgFormat)
     (WesternBoundary._expectedPlots wb),
   inr [map (fun p =>
               shown (fileExists (workdir +:+ "/" +:+ p +:+ "." +:+ imgFormat)) p)
          (WesternBoundary._expectedPlots wb)]).
Proof.
  intros Ha. unfold WesternBoundary.plot_table.
  rewrite (wb_plot_list_answers _ fileExists _ _ _ [] Ha). cbn.
  now rewrite app_nil_r.
Qed.

(** ** Faults of the checker are never hidden *)

Lemma faithful_ret {A : Type} checkFile (a : A) : faithful checkFile (ret a).
Proof. intros path e []. Qed.

Lemma faithful_raise {A : Type} checkFile (e : exn) :
  faithful checkFile (@raise A e).
Proof. intros path e' []. Qed.

Lemma faithful_getitem {A : Type} checkFile (l : list A) (j : nat) :
  faithful checkFile (getitem l j).
Proof.
  unfold getitem. destruct (nth_error l j);
    [apply faithful_ret | apply faithful_raise].
Qed.

Lemma faithful_call checkFile (path : string) :
  faithful checkFile (call_checkFile checkFile path "read").
Proof.
  intros path' e [<- | []] H. exact H.
Qed.

Lemma faithful_bind {A B : Type} checkFile (m : run A) (k : A -> run B) :
  faithful checkFile m -> (forall a, faithful checkFile (k a)) ->
  faithful checkFile (bind m k).
Proof.
  intros Hm Hk. destruct m as [q [e | a]]; cbn [bind].
  { intros path e' Hin Hc. specialize (Hm path e' Hin Hc).
    cbn [snd] in *. congruence. }
  specialize (Hk a). destruct (k a) as [q' r].
  intros path e Hin Hc. cbn [fst snd] in *.
  apply in_app_or in Hin. destruct Hin as [Hin | Hin].
  - specialize (Hm path e Hin Hc). discriminate.
  - exact (Hk path e Hin Hc).
Qed.

Lemma faithful_for_each {St X : Type} checkFile (xs : list X)
  (body : St -> X -> run St) :
  (forall s x, faithful checkFile (body s x)) ->
  forall s, faithful checkFile (for_each xs body s).
Proof.
  intros Hb. induction xs as [| x xs IH]; intros s; cbn [for_each].
  - apply faithful_ret.
  - apply faithful_bind; [apply Hb | exact IH].
Qed.

Ltac faithful_step :=
  match goal with
  | |- faithful _ (bind _ _) => apply faithful_bind; [| intros ?]
  | |- faithful _ (ret _) => apply faithful_ret
  | |- faithful _ (getitem _ _) => apply faithful_getitem
  | |- faithful _ (call_checkFile _ _ _) => apply faithful_call
  | |- faithful _ (for_each _ _ _) => apply faithful_for_each; intros ? ?
  | |- faithful _ (if ?b then _ else _) => destruct b
  | |- faithful _ (match ?x with (_, _) => _ end) => destruct x
  end.

Lemma cpllog_plot_table_faithful checkFile (self : CplLog.t)
  (workdir imgFormat : string) :
  faithful checkFile (CplLog.plot_table checkFile self workdir imgFormat).
Proof.
  unfold CplLog.plot_table, CplLog.row_body, CplLog.column_body.
  cbv zeta. repeat faithful_step.
Qed.

Lemma wb_plot_table_faithful checkFile (wb : WesternBoundary.t)
  (workdir imgFormat : string) :
  faithful checkFile (WesternBoundary.plot_table checkFile wb workdir imgFormat).
Proof.
  unfold WesternBoundary.plot_table, WesternBoundary.plot_body.
  cbv zeta. repeat faithful_step.
Qed.

(** ** Only the [rc] component of the checker's answer matters *)

Lemma call_checkFile_same {B : Type}
  (checkFile1 checkFile2 : string -> string -> exn + (bool * string))
  (path : string) (k : bool -> run B) :
  same_answer (checkFile1 path "read") (checkFile2 path "read") ->
  ('(rc, err_msg) <- call_checkFile checkFile1 path "read" ;; k rc) =
  ('(rc, err_msg) <- call_checkFile checkFile2 path "read" ;; k rc).
Proof.
  unfold call_checkFile, same_answer.
  destruct (checkFile1 path "read") as [e1 | [rc1 m1]],
           (checkFile2 path "read") as [e2 | [rc2 m2]];
    try contradiction; intros ->; reflexivity.
Qed.

Lemma column_body_same
  (checkFile1 checkFile2 : string -> string -> exn + (bool * string))
  (self : CplLog.t) (workdir imgFormat : string) (plot_list : list string)
  (s : list CplLog.plot_tuple) (j : nat) :
  (forall path,
     same_answer (checkFile1 path "read") (checkFile2 path "read")) ->
  CplLog.column_body checkFile1 self workdir imgFormat plot_list s j =
  CplLog.column_body checkFile2 self workdir imgFormat plot_list s j.
Proof.
  intros H. unfold CplLog.column_body.
  apply bind_ext. intros k. destruct (contains "timeseries" k).
  - apply bind_ext. intros p. cbv zeta.
    apply (call_checkFile_same checkFile1 checkFile2), H.
  - apply bind_ext. intros k'. destruct (contains "table" k'); [| reflexivity].
    apply bind_ext. intros p. cbv zeta.
    apply (call_checkFile_same checkFile1 checkFile2), H.
Qed.

Lemma plot_body_same
  (checkFile1 checkFile2 : string -> string -> exn + (bool * string))
  (workdir imgFormat : string) (plot_list : list string) (plot_file : string) :
  (forall path,
     same_answer (checkFile1 path "read") (checkFile2 path "read")) ->
  WesternBoundary.plot_body checkFile1 workdir imgFormat plot_list plot_file =
  WesternBoundary.plot_body checkFile2 workdir imgFormat plot_list plot_file.
Proof.
  intros H. unfold WesternBoundary.plot_body. cbv zeta.
  apply (call_checkFile_same checkFile1 checkFile2), H.
Qed.

(** ** Auxiliary facts on sums and strings *)

Lemma inr_eq {A B : Type} (x y : B) : @inr A B x = inr y -> x = y.
Proof. congruence. Qed.

Lemma length_append (s1 s2 : string) :
  String.length (s1 +:+ s2) = String.length s1 + String.length s2.
Proof. induction s1 as [| c s1 IH]; cbn; [reflexivity | now rewrite IH]. Qed.

(** The placeholder of a missing file is never the plain file name. *)
Lemma error_placeholder_differs (f : string) : f <> f +:+ " - Error".
Proof.
  intros H. apply (f_equal String.length) in H.
  rewrite length_append in H. cbn in H. lia.
Qed.

(** ** The claims *)

(** C1, as stated, fails: a [CplLog] with three labels, three artifacts and
    three link names gets rows of three cells, not four, because the inner
    loop runs over the fixed [num_cols - 1 = 2] columns. *)
Lemma C1_counterexample :
  well_formed three_columns /\
  exists table,
    snd (CplLog.plot_table all_present three_columns "/w" "png") = inr table /\
    ~ Forall
        (fun row =>
           length row = length (CplLog._linkNames three_columns) + 1)
        table.
Proof.
  split; [split; reflexivity |].
  eexists. split; [reflexivity |].
  intros H. apply Forall_inv in H. cbn in H. discriminate.
Qed.

(** C1 (amended): for every [CplLog] with exactly two link names (the
    [num_cols - 1] columns of the inner loop), each containing "timeseries" or
    "table", and at least two artifacts, and every checker that answers
    without raising, the table has [len(labels)] rows and every row has
    [len(linkNames) + 1] cells: the label cell, then one cell per link name.
    The table of [WesternBoundary] is one row with one cell per expected plot
    and no label cell. *)
Theorem C1_table_shape
  (checkFile : string -> string -> exn + (bool * string))
  (fileExists : string -> bool) (self : CplLog.t) (wb : WesternBoundary.t)
  (workdir imgFormat : string) :
  answers checkFile fileExists ->
  length (CplLog._linkNames self) = CplLog.num_cols - 1 ->
  Forall recognised (CplLog._linkNames self) ->
  CplLog.num_cols - 1 <= length (CplLog._expectedPlots self) ->
  (exists table,
     snd (CplLog.plot_table checkFile self workdir imgFormat) = inr table /\
     length table = length (CplLog._labels self) /\
     Forall
       (fun row =>
          length row = length (CplLog._linkNames self) + 1 /\
          map (fun cell => snd (fst cell)) row
            = "label" :: CplLog._linkNames self)
       table) /\
  (exists table,
     snd (WesternBoundary.plot_table checkFile wb workdir imgFormat)
       = inr table /\
     length table = 1 /\
     Forall
       (fun row => length row = length (WesternBoundary._expectedPlots wb))
       table).
Proof.
  intros Ha Hlen Hrec Hplots. split.
  - unfold CplLog.num_cols in *.
    destruct (CplLog._linkNames self) as [| k0 [| k1 [| ? ?]]] eqn:Hk;
      try discriminate.
    destruct (CplLog._expectedPlots self) as [| p0 [| p1 ps]] eqn:Hp;
      cbn in Hplots; try lia.
    inversion Hrec as [| ? ? Hr0 Hrec']; subst.
    inversion Hrec' as [| ? ? Hr1 _]; subst.
    destruct (recognised_extension imgFormat k0 Hr0) as [x0 Hx0].
    destruct (recognised_extension imgFormat k1 Hr1) as [x1 Hx1].
    rewrite plot_table_eq, columns_eq.
    rewrite (column_answers _ _ _ _ fileExists 0 Ha).
    rewrite (column_answers _ _ _ _ fileExists 1 Ha).
    rewrite Hk, Hp. cbn [nth_error]. rewrite Hx0, Hx1. cbv zeta.
    cbn [bind ret app].
    destruct (CplLog._labels self) as [| l ls].
    + exists []. cbn. auto.
    + eexists. split; [reflexivity |]. split; [apply length_map |].
      apply Forall_forall. intros row Hrow.
      apply in_map_iff in Hrow. destruct Hrow as (label & <- & _).
      split; reflexivity.
  - rewrite (wb_plot_table_answers _ fileExists _ _ _ Ha).
    eexists. split; [reflexivity |]. split; [reflexivity |].
    constructor; [apply length_map | constructor].
Qed.

Lemma C1_table_shape_witness :
  (exists table,
     snd (CplLog.plot_table all_present CplLog.__init__ "/w" "png")
       = inr table /\
     length table = 2 /\
     Forall
       (fun row =>
          length row = 3 /\
          map (fun cell => snd (fst cell)) row
            = ["label"; "timeseries"; "table"])
       table) /\
  (exists table,
     snd (WesternBoundary.plot_table all_present WesternBoundary.__init__
            "/w" "png") = inr table /\
     length table = 1 /\
     Forall (fun row => length row = 1) table).
Proof.
  apply (C1_table_shape all_present (fun _ => true) CplLog.__init__
           WesternBoundary.__init__ "/w" "png").
  - intros path. exists "". reflexivity.
  - reflexivity.
  - constructor; [left; reflexivity |].
    constructor; [right; reflexivity | constructor].
  - cbn. lia.
Defined.

(** C2, as stated, fails in [WesternBoundary._create_html]: the file asked
    about is [DWBC.png], but the cell of a missing file is the plot name
    without its extension followed by " - Error". *)
Lemma C2_counterexample :
  exists content,
    WesternBoundary.plot_table all_missing WesternBoundary.__init__ "/w" "png"
      = (["/w/DWBC.png"], inr [[content]]) /\
    content <> "DWBC.png" +:+ " - Error".
Proof. exists "DWBC - Error". split; [reflexivity | discriminate]. Qed.

(** C2 (amended): in the table of [CplLog], every cell of a column whose
    candidate file is absent holds the candidate file name, extension
    included, followed by " - Error".  In the table of [WesternBoundary] the
    cell of an absent file holds the plot name without the extension followed
    by " - Error". *)
Theorem C2_missing_file_cell
  (checkFile : string -> string -> exn + (bool * string))
  (fileExists : string -> bool) (self : CplLog.t) (wb : WesternBoundary.t)
  (workdir imgFormat : string) :
  answers checkFile fileExists ->
  (forall table row j k content,
     snd (CplLog.plot_table checkFile self workdir imgFormat) = inr table ->
     In row table -> In (j + 1, k, content) row ->
     exists p x,
       nth_error (CplLog._expectedPlots self) j = Some p /\
       extension imgFormat k = Some x /\
       (fileExists (workdir +:+ "/" +:+ p +:+ "." +:+ x) = false ->
        content = (p +:+ "." +:+ x) +:+ " - Error")) /\
  (forall table row i p,
     snd (WesternBoundary.plot_table checkFile wb workdir imgFormat)
       = inr table ->
     In row table ->
     nth_error (WesternBoundary._expectedPlots wb) i = Some p ->
     fileExists (workdir +:+ "/" +:+ p +:+ "." +:+ imgFormat) = false ->
     nth_error row i = Some (p +:+ " - Error")).
Proof.
  intros Ha. split.
  - intros table row j k content Ht Hrow Hcell.
    destruct (cell_inv _ _ _ _ table row _ _ _ Ht Hrow Hcell)
      as [(label & _ & Heq) | (j' & x & p & rc & msg & Hj & _ & _ & Hx & Hp & Hc & _ & ->)].
    { unfold label_tuple in Heq. injection Heq as Hj _ _. lia. }
    assert (j' = j) as -> by lia.
    exists p, x. repeat split; auto.
    intros Hmiss.
    destruct (Ha (workdir +:+ "/" +:+ p +:+ "." +:+ x)) as [msg' Hc'].
    assert (Hrc : rc = fileExists (workdir +:+ "/" +:+ p +:+ "." +:+ x))
      by congruence.
    rewrite Hrc, Hmiss. reflexivity.
  - intros table row i p Ht Hrow Hp Hmiss.
    rewrite (wb_plot_table_answers _ fileExists _ _ _ Ha) in Ht.
    cbn [snd] in Ht. apply inr_eq in Ht. subst table.
    destruct Hrow as [<- | []].
    rewrite nth_error_map, Hp. cbn [option_map]. rewrite Hmiss. reflexivity.
Qed.

Lemma C2_missing_file_cell_witness :
  (exists p x,
     nth_error (CplLog._expectedPlots CplLog.__init__) 1 = Some p /\
     extension "png" "table" = Some x /\
     ((fun _ : string => false) ("/w" +:+ "/" +:+ p +:+ "." +:+ x) = false ->
      "cplfwbudget.asc - Error" = (p +:+ "." +:+ x) +:+ " - Error")) /\
  nth_error ["DWBC - Error"] 0 = Some ("DWBC" +:+ " - Error").
Proof.
  pose proof (C2_missing_file_cell all_missing (fun _ => false)
                CplLog.__init__ WesternBoundary.__init__ "/w" "png") as H.
  destruct H as [Hcpl Hwb].
  - intros path. eexists. reflexivity.
  - split.
    + apply (Hcpl
               [[(0, "label", "Heat:");
                 (1, "timeseries", "cplheatbudget.png - Error");
                 (2, "table", "cplfwbudget.asc - Error")];
                [(0, "label", "Freshwater:");
                 (1, "timeseries", "cplheatbudget.png - Error");
                 (2, "table", "cplfwbudget.asc - Error")]]
               [(0, "label", "Heat:");
                (1, "timeseries", "cplheatbudget.png - Error");
                (2, "table", "cplfwbudget.asc - Error")]
               1 "table" "cplfwbudget.asc - Error").
      * reflexivity.
      * left. reflexivity.
      * right. right. left. reflexivity.
    + apply (Hwb [["DWBC - Error"]] ["DWBC - Error"] 0 "DWBC").
      * reflexivity.
      * left. reflexivity.
      * reflexivity.
      * reflexivity.
Defined.

(** C3, as stated, fails in [WesternBoundary._create_html]: with every file
    present the cell holds the plot name [DWBC], not the candidate file name
    [DWBC.png]. *)
Lemma C3_counterexample :
  exists content,
    WesternBoundary.plot_table all_present WesternBoundary.__init__ "/w" "png"
      = (["/w/DWBC.png"], inr [[content]]) /\
    content <> "DWBC" +:+ "." +:+ "png".
Proof. exists "DWBC". split; [reflexivity | discriminate]. Qed.

(** C3 (amended): if the checker finds every path it is asked about, then in
    the table of [CplLog] every cell that is not a label cell holds the plain
    candidate file name, to which " - Error" has not been appended; the one
    row of the table of [WesternBoundary] is the list of plot names, without
    extension. *)
Theorem C3_all_files_present
  (checkFile : string -> string -> exn + (bool * string))
  (fileExists : string -> bool) (self : CplLog.t) (wb : WesternBoundary.t)
  (workdir imgFormat : string) :
  answers checkFile fileExists ->
  ((forall path,
      In path (fst (CplLog.plot_table checkFile self workdir imgFormat)) ->
      fileExists path = true) ->
   forall table row j k content,
     snd (CplLog.plot_table checkFile self workdir imgFormat) = inr table ->
     In row table -> In (j + 1, k, content) row ->
     exists p x,
       nth_error (CplLog._expectedPlots self) j = Some p /\
       extension imgFormat k = Some x /\
       content = p +:+ "." +:+ x /\
       content <> (p +:+ "." +:+ x) +:+ " - Error") /\
  ((forall path,
      In path
        (fst (WesternBoundary.plot_table checkFile wb workdir imgFormat)) ->
      fileExists path = true) ->
   snd (WesternBoundary.plot_table checkFile wb workdir imgFormat)
     = inr [WesternBoundary._expectedPlots wb]).
Proof.
  intros Ha. split.
  - intros Hall table row j k content Ht Hrow Hcell.
    destruct (cell_inv _ _ _ _ table row _ _ _ Ht Hrow Hcell)
      as [(label & _ & Heq) | (j' & x & p & rc & msg & Hj & _ & _ & Hx & Hp & Hc & Hq & ->)].
    { unfold label_tuple in Heq. injection Heq as Hj _ _. lia. }
    assert (j' = j) as -> by lia.
    exists p, x.
    destruct (Ha (workdir +:+ "/" +:+ p +:+ "." +:+ x)) as [msg' Hc'].
    assert (Hrc : rc = fileExists (workdir +:+ "/" +:+ p +:+ "." +:+ x))
      by congruence.
    rewrite Hrc, (Hall _ Hq).
    repeat split; auto. apply error_placeholder_differs.
  - rewrite (wb_plot_table_answers _ fileExists _ _ _ Ha). cbn [fst snd].
    intros Hall. do 2 f_equal.
    induction (WesternBoundary._expectedPlots wb) as [| p ps IH];
      [reflexivity |].
    cbn [map]. rewrite (Hall _ (or_introl eq_refl)). cbn [shown]. f_equal.
    apply IH. intros path Hin. apply Hall. right. exact Hin.
Qed.

Lemma C3_all_files_present_witness :
  (exists p x,
     nth_error (CplLog._expectedPlots CplLog.__init__) 0 = Some p /\
     extension "png" "timeseries" = Some x /\
     "cplheatbudget.png" = p +:+ "." +:+ x /\
     "cplheatbudget.png" <> (p +:+ "." +:+ x) +:+ " - Error") /\
  snd (WesternBoundary.plot_table all_present WesternBoundary.__init__
         "/w" "png") = inr [["DWBC"]].
Proof.
  pose proof (C3_all_files_present all_present (fun _ => true)
                CplLog.__init__ WesternBoundary.__init__ "/w" "png") as H.
  destruct H as [Hcpl Hwb].
  - intros path. exists "". reflexivity.
  - split.
    + apply (Hcpl (fun _ _ => eq_refl)
               [[(0, "label", "Heat:"); (1, "timeseries", "cplheatbudget.png");
                 (2, "table", "cplfwbudget.asc")];
                [(0, "label", "Freshwater:");
                 (1, "timeseries", "cplheatbudget.png");
                 (2, "table", "cplfwbudget.asc")]]
               [(0, "label", "Heat:"); (1, "timeseries", "cplheatbudget.png");
                (2, "table", "cplfwbudget.asc")]
               0 "timeseries" "cplheatbudget.png").
      * reflexivity.
      * left. reflexivity.
      * right. left. reflexivity.
    + apply (Hwb (fun _ _ => eq_refl)).
Defined.

(** C4: a cell recorded for column [j] of a returned table carries link name
    [linkNames[j]]; if that link name contains "timeseries" the file asked
    about and recorded is [plots[j]] with the image format as extension,
    otherwise it contains "table" and the file is [plots[j]] with the
    extension "asc".  The cell content is that file name, or that file name
    followed by " - Error". *)
Theorem C4_candidate_filename
  (checkFile : string -> string -> exn + (bool * string))
  (self : CplLog.t) (workdir imgFormat : string)
  (table : list (list CplLog.plot_tuple)) (row : list CplLog.plot_tuple)
  (j : nat) (k content : string) :
  snd (CplLog.plot_table checkFile self workdir imgFormat) = inr table ->
  In row table -> In (j + 1, k, content) row ->
  nth_error (CplLog._linkNames self) j = Some k /\
  exists p,
    nth_error (CplLog._expectedPlots self) j = Some p /\
    ((contains "timeseries" k = true /\
      In (workdir +:+ "/" +:+ p +:+ "." +:+ imgFormat)
        (fst (CplLog.plot_table checkFile self workdir imgFormat)) /\
      (content = p +:+ "." +:+ imgFormat \/
       content = (p +:+ "." +:+ imgFormat) +:+ " - Error")) \/
     (contains "timeseries" k = false /\ contains "table" k = true /\
      In (workdir +:+ "/" +:+ p +:+ "." +:+ "asc")
        (fst (CplLog.plot_table checkFile self workdir imgFormat)) /\
      (content = p +:+ "." +:+ "asc" \/
       content = (p +:+ "." +:+ "asc") +:+ " - Error"))).
Proof.
  intros Ht Hrow Hcell.
  destruct (cell_inv _ _ _ _ table row _ _ _ Ht Hrow Hcell)
    as [(label & _ & Heq) | (j' & x & p & rc & msg & Hj & _ & Hk & Hx & Hp & _ & Hq & ->)].
  { unfold label_tuple in Heq. injection Heq as Hj _ _. lia. }
  assert (j' = j) as -> by lia.
  split; [exact Hk |]. exists p. split; [exact Hp |].
  assert (Hshown : forall f, shown rc f = f \/ shown rc f = f +:+ " - Error")
    by (intros f; destruct rc; cbn [shown]; auto).
  unfold extension in Hx.
  destruct (contains "timeseries" k); [| destruct (contains "table" k)];
    try discriminate.
  - assert (x = imgFormat) as -> by congruence. left. auto.
  - assert (x = "asc") as -> by congruence. right. auto.
Qed.

Lemma C4_candidate_filename_witness :
  (nth_error (CplLog._linkNames CplLog.__init__) 0 = Some "timeseries" /\
   exists p,
     nth_error (CplLog._expectedPlots CplLog.__init__) 0 = Some p /\
     ((contains "timeseries" "timeseries" = true /\
       In ("/w" +:+ "/" +:+ p +:+ "." +:+ "jpg")
         (fst (CplLog.plot_table all_missing CplLog.__init__ "/w" "jpg")) /\
       ("cplheatbudget.jpg - Error" = p +:+ "." +:+ "jpg" \/
        "cplheatbudget.jpg - Error" = (p +:+ "." +:+ "jpg") +:+ " - Error")) \/
      (contains "timeseries" "timeseries" = false /\
       contains "table" "timeseries" = true /\
       In ("/w" +:+ "/" +:+ p +:+ "." +:+ "asc")
         (fst (CplLog.plot_table all_missing CplLog.__init__ "/w" "jpg")) /\
       ("cplheatbudget.jpg - Error" = p +:+ "." +:+ "asc" \/
        "cplheatbudget.jpg - Error" = (p +:+ "." +:+ "asc") +:+ " - Error")))).
Proof.
  apply (C4_candidate_filename all_missing CplLog.__init__ "/w" "jpg"
           [[(0, "label", "Heat:");
             (1, "timeseries", "cplheatbudget.jpg - Error");
             (2, "table", "cplfwbudget.asc - Error")];
            [(0, "label", "Freshwater:");
             (1, "timeseries", "cplheatbudget.jpg - Error");
             (2, "table", "cplfwbudget.asc - Error")]]
           [(0, "label", "Heat:");
            (1, "timeseries", "cplheatbudget.jpg - Error");
            (2, "table", "cplfwbudget.asc - Error")]
           0 "timeseries" "cplheatbudget.jpg - Error").
  - reflexivity.
  - left. reflexivity.
  - right. left. reflexivity.
Defined.

(** C5, as stated, fails: in the scenario the cell at index 1 of row 1 is the
    image cell [cplheatbudget.png], as in row 0; the table cell sits at
    index 2 of every row. *)
Lemma C5_counterexample :
  exists table row1 cell,
    snd (CplLog.plot_table (only_file "/w/cplheatbudget.png") CplLog.__init__
           "/w" "png") = inr table /\
    length table = 2 /\
    nth_error table 1 = Some row1 /\
    nth_error row1 1 = Some cell /\
    snd cell <> "cplfwbudget.asc - Error".
Proof.
  do 3 eexists. repeat split; try reflexivity. discriminate.
Qed.

(** C5 (amended): for [CplLog()] with image format "png" and a working
    directory in which [cplheatbudget.png] is found and [cplfwbudget.asc] is
    not, the table has two rows; in each of them the cell at index 1 holds
    "cplheatbudget.png" and the cell at index 2 holds
    "cplfwbudget.asc - Error". *)
Theorem C5_scenario
  (checkFile : string -> string -> exn + (bool * string))
  (workdir m1 m2 : string) :
  checkFile (workdir +:+ "/cplheatbudget.png") "read" = inr (true, m1) ->
  checkFile (workdir +:+ "/cplfwbudget.asc") "read" = inr (false, m2) ->
  snd (CplLog.plot_table checkFile CplLog.__init__ workdir "png") =
  inr [[(0, "label", "Heat:"); (1, "timeseries", "cplheatbudget.png");
        (2, "table", "cplfwbudget.asc - Error")];
       [(0, "label", "Freshwater:"); (1, "timeseries", "cplheatbudget.png");
        (2, "table", "cplfwbudget.asc - Error")]].
Proof.
  intros H1 H2. rewrite plot_table_eq, columns_eq, !column_eq.
  cbn [CplLog.__init__ CplLog._labels CplLog._linkNames CplLog._expectedPlots
       nth_error].
  change (extension "png" "timeseries") with (Some "png").
  change (extension "png" "table") with (Some "asc").
  cbv beta iota zeta.
  change (workdir +:+ "/" +:+ "cplheatbudget" +:+ "." +:+ "png")
    with (workdir +:+ "/cplheatbudget.png").
  change (workdir +:+ "/" +:+ "cplfwbudget" +:+ "." +:+ "asc")
    with (workdir +:+ "/cplfwbudget.asc").
  rewrite H1, H2. reflexivity.
Qed.

Lemma C5_scenario_witness :
  snd (CplLog.plot_table (only_file "/w/cplheatbudget.png") CplLog.__init__
         "/w" "png") =
  inr [[(0, "label", "Heat:"); (1, "timeseries", "cplheatbudget.png");
        (2, "table", "cplfwbudget.asc - Error")];
       [(0, "label", "Freshwater:"); (1, "timeseries", "cplheatbudget.png");
        (2, "table", "cplfwbudget.asc - Error")]].
Proof.
  apply (C5_scenario (only_file "/w/cplheatbudget.png") "/w" ""
           "/w/cplfwbudget.asc does not exist"); reflexivity.
Defined.

(** C6, as stated, fails: a [CplLog] with one label, one artifact and one
    link name is well formed, yet the second iteration of the inner loop
    subscripts [linkNames[1]] and the construction ends in [IndexError],
    whatever the checker says. *)
Lemma C6_counterexample :
  well_formed one_column /\
  snd (CplLog.plot_table all_present one_column "/w" "png") = inl IndexError.
Proof. split; [split; reflexivity | reflexivity]. Qed.

(** C6 (amended): for every [CplLog] with at least two link names and at
    least two artifacts, and for any two checkers that answer without
    raising, both constructions return a table of [len(labels)] rows, and the
    two tables carry the same column index and link name in every cell: which
    files are missing changes cell contents only.  The table of
    [WesternBoundary] is always returned, one row of the same length under
    both checkers. *)
Theorem C6_missing_files_not_fatal
  (checkFile1 checkFile2 : string -> string -> exn + (bool * string))
  (fileExists1 fileExists2 : string -> bool)
  (self : CplLog.t) (wb : WesternBoundary.t) (workdir imgFormat : string) :
  answers checkFile1 fileExists1 -> answers checkFile2 fileExists2 ->
  CplLog.num_cols - 1 <= length (CplLog._linkNames self) ->
  CplLog.num_cols - 1 <= length (CplLog._expectedPlots self) ->
  (exists t1 t2,
     snd (CplLog.plot_table checkFile1 self workdir imgFormat) = inr t1 /\
     snd (CplLog.plot_table checkFile2 self workdir imgFormat) = inr t2 /\
     length t1 = length (CplLog._labels self) /\
     length t2 = length (CplLog._labels self) /\
     map (map fst) t1 = map (map fst) t2) /\
  (exists w1 w2,
     snd (WesternBoundary.plot_table checkFile1 wb workdir imgFormat)
       = inr w1 /\
     snd (WesternBoundary.plot_table checkFile2 wb workdir imgFormat)
       = inr w2 /\
     length w1 = 1 /\ length w2 = 1 /\
     map (@length string) w1 = map (@length string) w2).
Proof.
  intros H1 H2 Hk Hp. split.
  - destruct (columns_same_heads _ _ _ _ self workdir imgFormat H1 H2 Hk Hp)
      as (q1 & cs1 & q2 & cs2 & E1 & E2 & E).
    rewrite !plot_table_eq, E1, E2.
    destruct (CplLog._labels self) as [| l ls].
    + exists [], []. cbn. auto.
    + do 2 eexists. split; [reflexivity |]. split; [reflexivity |].
      rewrite !length_map. split; [reflexivity |]. split; [reflexivity |].
      rewrite !map_map. apply map_ext. intros label.
      cbn [map]. unfold CplLog.plot_tuple in *. rewrite E. reflexivity.
  - rewrite (wb_plot_table_answers _ fileExists1 _ _ _ H1).
    rewrite (wb_plot_table_answers _ fileExists2 _ _ _ H2).
    do 2 eexists. split; [reflexivity |]. split; [reflexivity |].
    split; [reflexivity |]. split; [reflexivity |].
    cbn [map]. rewrite !length_map. reflexivity.
Qed.

Lemma C6_missing_files_not_fatal_witness :
  (exists t1 t2,
     snd (CplLog.plot_table all_present CplLog.__init__ "/w" "png") = inr t1 /\
     snd (CplLog.plot_table all_missing CplLog.__init__ "/w" "png") = inr t2 /\
     length t1 = 2 /\ length t2 = 2 /\
     map (map fst) t1 = map (map fst) t2) /\
  (exists w1 w2,
     snd (WesternBoundary.plot_table all_present WesternBoundary.__init__
            "/w" "png") = inr w1 /\
     snd (WesternBoundary.plot_table all_missing WesternBoundary.__init__
            "/w" "png") = inr w2 /\
     length w1 = 1 /\ length w2 = 1 /\
     map (@length string) w1 = map (@length string) w2).
Proof.
  apply (C6_missing_files_not_fatal all_present all_missing
           (fun _ => true) (fun _ => false)
           CplLog.__init__ WesternBoundary.__init__ "/w" "png").
  - intros path. exists "". reflexivity.
  - intros path. eexists. reflexivity.
  - cbn. lia.
  - cbn. lia.
Defined.

(** C7, as stated, fails: with three link names and two artifacts the inner
    loop still runs over columns 0 and 1 only, never subscripts the artifact
    list out of range, and returns a table that silently leaves the third
    link name out. *)
Lemma C7_counterexample :
  length (CplLog._expectedPlots extra_link)
    < length (CplLog._linkNames extra_link) /\
  snd (CplLog.plot_table all_present extra_link "/w" "png") =
  inr [[(0, "label", "Heat:"); (1, "timeseries", "cplheatbudget.png");
        (2, "table", "cplfwbudget.asc")];
       [(0, "label", "Freshwater:"); (1, "timeseries", "cplheatbudget.png");
        (2, "table", "cplfwbudget.asc")]].
Proof. split; [cbn; lia | reflexivity]. Qed.

(** C7 (amended): for every [CplLog] with at least one label whose artifact
    list has fewer entries than the [num_cols - 1 = 2] columns of the inner
    loop, and whose link names at those columns contain "timeseries" or
    "table", the construction ends in [IndexError] and no table is
    returned. *)
Theorem C7_short_artifacts
  (checkFile : string -> string -> exn + (bool * string))
  (fileExists : string -> bool) (self : CplLog.t)
  (workdir imgFormat : string) :
  answers checkFile fileExists ->
  CplLog._labels self <> [] ->
  length (CplLog._expectedPlots self) < CplLog.num_cols - 1 ->
  (forall j k,
     j < CplLog.num_cols - 1 ->
     nth_error (CplLog._linkNames self) j = Some k -> recognised k) ->
  snd (CplLog.plot_table checkFile self workdir imgFormat) = inl IndexError.
Proof.
  unfold CplLog.num_cols. intros Ha Hl Hp Hrec.
  rewrite plot_table_eq, columns_eq.
  destruct (CplLog._labels self) as [| l ls]; [congruence |].
  rewrite (column_answers _ _ _ _ fileExists 0 Ha).
  rewrite (column_answers _ _ _ _ fileExists 1 Ha).
  destruct (nth_error (CplLog._linkNames self) 0) as [k0 |] eqn:Hk0;
    [| reflexivity].
  destruct (recognised_extension imgFormat k0 (Hrec 0 k0 ltac:(lia) Hk0))
    as [x0 ->].
  destruct (nth_error (CplLog._expectedPlots self) 0) as [p0 |];
    [| reflexivity].
  assert (Hp1 : nth_error (CplLog._expectedPlots self) 1 = None)
    by (apply nth_error_None; lia).
  rewrite Hp1.
  destruct (nth_error (CplLog._linkNames self) 1) as [k1 |] eqn:Hk1;
    [| reflexivity].
  destruct (recognised_extension imgFormat k1 (Hrec 1 k1 ltac:(lia) Hk1))
    as [x1 ->].
  reflexivity.
Qed.

Lemma C7_short_artifacts_witness :
  snd (CplLog.plot_table all_present no_artifacts "/w" "png") = inl IndexError.
Proof.
  apply (C7_short_artifacts all_present (fun _ => true) no_artifacts "/w" "png").
  - intros path. exists "". reflexivity.
  - discriminate.
  - cbn. lia.
  - intros [| [| j]] k Hj Hk; cbn in Hk.
    + injection Hk as <-. left. reflexivity.
    + injection Hk as <-. right. reflexivity.
    + cbn in Hj. lia.
Defined.

(** C8: if the checker raises [e] on a path that the construction asks about,
    the construction ends in that same exception [e]; no table, hence no
    placeholder cell, is produced.  This holds for both classes. *)
Theorem C8_checker_fault_propagates
  (checkFile : string -> string -> exn + (bool * string))
  (self : CplLog.t) (wb : WesternBoundary.t) (workdir imgFormat : string)
  (path : string) (e : exn) :
  checkFile path "read" = inl e ->
  (In path (fst (CplLog.plot_table checkFile self workdir imgFormat)) ->
   snd (CplLog.plot_table checkFile self workdir imgFormat) = inl e) /\
  (In path (fst (WesternBoundary.plot_table checkFile wb workdir imgFormat)) ->
   snd (WesternBoundary.plot_table checkFile wb workdir imgFormat) = inl e).
Proof.
  intros He. split; intros Hin.
  - exact (cpllog_plot_table_faithful checkFile self workdir imgFormat
             path e Hin He).
  - exact (wb_plot_table_faithful checkFile wb workdir imgFormat path e Hin He).
Qed.

Lemma C8_checker_fault_propagates_witness :
  snd (CplLog.plot_table (denied "/w/cplfwbudget.asc") CplLog.__init__
         "/w" "png") = inl (OtherError "permission denied") /\
  snd (WesternBoundary.plot_table (denied "/w/DWBC.png")
         WesternBoundary.__init__ "/w" "png")
    = inl (OtherError "permission denied").
Proof.
  split.
  - apply (C8_checker_fault_propagates (denied "/w/cplfwbudget.asc")
             CplLog.__init__ WesternBoundary.__init__ "/w" "png"
             "/w/cplfwbudget.asc" (OtherError "permission denied"));
      [reflexivity | right; left; reflexivity].
  - apply (C8_checker_fault_propagates (denied "/w/DWBC.png")
             CplLog.__init__ WesternBoundary.__init__ "/w" "png"
             "/w/DWBC.png" (OtherError "permission denied"));
      [reflexivity | left; reflexivity].
Defined.

(** C9: two runs of the construction on the same object, working directory
    and image format, with checkers that give the same answer ([rc], or the
    same exception) for every path, yield the same outcome, table included,
    after asking about the same paths.  This holds for both classes. *)
Theorem C9_deterministic
  (checkFile1 checkFile2 : string -> string -> exn + (bool * string))
  (self : CplLog.t) (wb : WesternBoundary.t) (workdir imgFormat : string) :
  (forall path,
     same_answer (checkFile1 path "read") (checkFile2 path "read")) ->
  CplLog.plot_table checkFile1 self workdir imgFormat
    = CplLog.plot_table checkFile2 self workdir imgFormat /\
  WesternBoundary.plot_table checkFile1 wb workdir imgFormat
    = WesternBoundary.plot_table checkFile2 wb workdir imgFormat.
Proof.
  intros H. split.
  - unfold CplLog.plot_table. apply for_each_ext. intros table i.
    unfold CplLog.row_body. apply bind_ext. intros label. cbv zeta.
    f_equal. apply for_each_ext. intros s j. now apply column_body_same.
  - unfold WesternBoundary.plot_table. f_equal.
    apply for_each_ext. intros s p. now apply plot_body_same.
Qed.

Lemma C9_deterministic_witness :
  CplLog.plot_table (only_file "/w/cplheatbudget.png") CplLog.__init__
    "/w" "png"
    = CplLog.plot_table
        (fun path _ => inr (String.eqb path "/w/cplheatbudget.png", "?"))
        CplLog.__init__ "/w" "png" /\
  WesternBoundary.plot_table (only_file "/w/cplheatbudget.png")
    WesternBoundary.__init__ "/w" "png"
    = WesternBoundary.plot_table
        (fun path _ => inr (String.eqb path "/w/cplheatbudget.png", "?"))
        WesternBoundary.__init__ "/w" "png".
Proof.
  apply (C9_deterministic (only_file "/w/cplheatbudget.png")
           (fun path _ => inr (String.eqb path "/w/cplheatbudget.png", "?"))).
  intros path. unfold same_answer, only_file.
  destruct (String.eqb path "/w/cplheatbudget.png"); reflexivity.
Defined.

(** C10: in a returned table of [CplLog] every row is its own label cell
    followed by one and the same list of cells; any two rows have the same
    cells after the label cell. *)
Theorem C10_rows_differ_in_label_only
  (checkFile : string -> string -> exn + (bool * string))
  (self : CplLog.t) (workdir imgFormat : string)
  (table : list (list CplLog.plot_tuple)) :
  snd (CplLog.plot_table checkFile self workdir imgFormat) = inr table ->
  (exists cells,
     table =
     map (fun label => (0, "label", label +:+ ":") :: cells)
       (CplLog._labels self)) /\
  (forall row1 row2, In row1 table -> In row2 table -> tl row1 = tl row2).
Proof.
  intros Ht. destruct (table_inv _ _ _ _ table Ht) as (cs & -> & _).
  split; [exists cs; reflexivity |].
  intros row1 row2 H1 H2. apply in_map_iff in H1, H2.
  destruct H1 as (l1 & <- & _), H2 as (l2 & <- & _). reflexivity.
Qed.

Lemma C10_rows_differ_in_label_only_witness :
  (exists cells,
     [[(0, "label", "Heat:"); (1, "timeseries", "cplheatbudget.png");
       (2, "table", "cplfwbudget.asc - Error")];
      [(0, "label", "Freshwater:"); (1, "timeseries", "cplheatbudget.png");
       (2, "table", "cplfwbudget.asc - Error")]] =
     map (fun label => (0, "label", label +:+ ":") :: cells)
       (CplLog._labels CplLog.__init__)) /\
  (forall row1 row2,
     In row1
       [[(0, "label", "Heat:"); (1, "timeseries", "cplheatbudget.png");
         (2, "table", "cplfwbudget.asc - Error")];
        [(0, "label", "Freshwater:"); (1, "timeseries", "cplheatbudget.png");
         (2, "table", "cplfwbudget.asc - Error")]] ->
     In row2
       [[(0, "label", "Heat:"); (1, "timeseries", "cplheatbudget.png");
         (2, "table", "cplfwbudget.asc - Error")];
        [(0, "label", "Freshwater:"); (1, "timeseries", "cplheatbudget.png");
         (2, "table", "cplfwbudget.asc - Error")]] ->
     tl row1 = tl row2).
Proof.
  apply (C10_rows_differ_in_label_only (only_file "/w/cplheatbudget.png")
           CplLog.__init__ "/w" "png").
  reflexivity.
Defined.

(** * The methods that act on the outside world *)

(** ** Laws of stateful computations *)


Lemma dict_set_same d k v : dict_set d k v k = Some v.
Proof. unfold dict_set. now rewrite String.eqb_refl. Qed.

Lemma dict_set_other d k v k' : k' <> k -> dict_set d k v k' = d k'.
Proof.
  intros H. unfold dict_set. apply String.eqb_neq in H. now rewrite H.
Qed.

Lemma after_nil {St A : Type} (x : list event * St * (exn + A)) :
  after [] x = x.
Proof. destruct x as [[t s] r]. reflexivity. Qed.

Lemma after_after {St A : Type} (t1 t2 : list event)
  (x : list event * St * (exn + A)) :
  after t1 (after t2 x) = after (t1 ++ t2) x.
Proof. destruct x as [[t s] r]. cbn. now rewrite app_assoc. Qed.

Lemma io_bind_eq {St A B : Type} (m : io St A) (k : A -> io St B) (s : St) :
  io_bind m k s =
  match m s with
  | (t, s', inl e) => (t, s', inl e)
  | (t, s', inr a) => after t (k a s')
  end.
Proof. reflexivity. Qed.

Lemma io_bind_ret {St A B : Type} (a : A) (k : A -> io St B) (s : St) :
  io_bind (io_ret a) k s = k a s.
Proof. rewrite io_bind_eq. cbn. apply after_nil. Qed.

Lemma io_bind_raise {St A B : Type} (e : exn) (k : A -> io St B) (s : St) :
  io_bind (io_raise e) k s = ([], s, inl e).
Proof. reflexivity. Qed.

Lemma io_bind_perform {St A B : Type} (ev : event) (r : exn + A)
  (k : A -> io St B) (s : St) :
  io_bind (perform ev r) k s =
  match r with
  | inl e => ([ev], s, inl e)
  | inr a => after [ev] (k a s)
  end.
Proof. rewrite io_bind_eq. unfold perform. destruct r; reflexivity. Qed.

Lemma io_bind_assoc {St A B C : Type} (m : io St A) (f : A -> io St B)
  (g : B -> io St C) (s : St) :
  io_bind (io_bind m f) g s = io_bind m (fun a => io_bind (f a) g) s.
Proof.
  unfold io_bind. destruct (m s) as [[t s'] [e | a]]; [reflexivity |].
  destruct (f a s') as [[t' s''] [e' | b]]; [reflexivity |].
  destruct (g b s'') as [[t'' s3] r]. now rewrite app_assoc.
Qed.

Lemma io_bind_env_get {B : Type} (k : string) (f : string -> io CplLog.state B)
  (s : CplLog.state) :
  io_bind (CplLog.env_get k) f s =
  match CplLog.st_env s k with
  | Some v => f v s
  | None => ([], s, inl (KeyError k))
  end.
Proof.
  rewrite io_bind_eq. unfold CplLog.env_get.
  destruct (CplLog.st_env s k); [apply after_nil | reflexivity].
Qed.

Lemma io_bind_env_set {B : Type} (k v : string) (f : unit -> io CplLog.state B)
  (s : CplLog.state) :
  io_bind (CplLog.env_set k v) f s =
  f tt {| CplLog.st_self := CplLog.st_self s;
          CplLog.st_env := dict_set (CplLog.st_env s) k v;
          CplLog.st_environ := CplLog.st_environ s |}.
Proof. rewrite io_bind_eq. cbn. apply after_nil. Qed.

Lemma io_bind_environ_set {B : Type} (k v : string)
  (f : unit -> io CplLog.state B) (s : CplLog.state) :
  io_bind (CplLog.environ_set k v) f s =
  f tt {| CplLog.st_self := CplLog.st_self s;
          CplLog.st_env := CplLog.st_env s;
          CplLog.st_environ := dict_set (CplLog.st_environ s) k v |}.
Proof. rewrite io_bind_eq. cbn. apply after_nil. Qed.

Ltac io_simpl :=
  repeat (first
    [ rewrite io_bind_assoc
    | rewrite io_bind_ret
    | rewrite io_bind_raise
    | rewrite io_bind_env_set
    | rewrite io_bind_environ_set
    | rewrite io_bind_env_get
    | rewrite io_bind_perform
    | rewrite after_after
    | rewrite after_nil ];
    cbv beta iota;
    cbn [CplLog.st_self CplLog.st_env CplLog.st_environ]).

Lemma select_version_eq (s : CplLog.state) :
  CplLog.select_version s =
  match CplLog.st_env s "TS_CPL" with
  | None => ([], with_windows "22" s, inl (KeyError "TS_CPL"))
  | Some ts =>
      if uses_cpl67 ts
      then ([], with_windows "21" (with_windows "22" s), inr ("cpl" +:+ ts))
      else ([], with_windows "22" s, inr "cpl7b")
  end.
Proof.
  unfold CplLog.select_version, uses_cpl67. cbv zeta.
  destruct (CplLog.st_env s "TS_CPL") as [ts |] eqn:Hts; io_simpl;
    rewrite !dict_set_other by discriminate; rewrite Hts; [| reflexivity].
  destruct (String.eqb "7" ts); io_simpl;
    rewrite ?dict_set_other by discriminate; rewrite ?Hts; io_simpl.
  - rewrite ?dict_set_other by discriminate; rewrite ?Hts. reflexivity.
  - destruct (String.eqb "6" ts); io_simpl; [| reflexivity].
    rewrite ?dict_set_other by discriminate; rewrite ?Hts. reflexivity.
Qed.

(** * Further properties of the two [_create_html] methods *)

(** ** [CplLog._create_html] *)

(** X1: the template of [CplLog] is rendered only when the table has been
    built; it then receives the title [self._name], the table, and a
    [num_rows] equal to the number of rows of that table, and what it renders
    is returned as it is.  An exception of the construction is the outcome of
    the method. *)
Theorem X1_cpllog_template_vars
  (checkFile : string -> string -> exn + (bool * string))
  (render : string -> string -> CplLog.templateVars -> exn + string)
  (self : CplLog.t) (workdir imgFormat templatePath : string) :
  CplLog._create_html checkFile render self workdir imgFormat templatePath =
  match CplLog.plot_table checkFile self workdir imgFormat with
  | (q, inl e) => (q, inl e)
  | (q, inr table) =>
      (q, render templatePath (CplLog._template_file self)
            {| CplLog.title := CplLog._name self;
               CplLog.plot_table_var := table;
               CplLog.num_rows := length table |})
  end.
Proof.
  unfold CplLog._create_html.
  destruct (CplLog.plot_table checkFile self workdir imgFormat)
    as [q [e | table]] eqn:Ht; [reflexivity |].
  cbn [bind]. rewrite app_nil_r.
  assert (Hs : snd (CplLog.plot_table checkFile self workdir imgFormat)
               = inr table) by now rewrite Ht.
  destruct (table_inv _ _ _ _ table Hs) as (cs & E & _).
  assert (Hlen : length table = length (CplLog._labels self))
    by (rewrite E; apply length_map).
  rewrite Hlen. reflexivity.
Qed.

Lemma extension_none (imgFormat k : string) :
  extension imgFormat k = None -> ~ recognised k.
Proof.
  unfold extension, recognised.
  destruct (contains "timeseries" k); [discriminate |].
  destruct (contains "table" k); [discriminate |].
  intros _ [H | H]; discriminate.
Qed.

Lemma column_index_error
  (checkFile : string -> string -> exn + (bool * string))
  (fileExists : string -> bool) (self : CplLog.t)
  (workdir imgFormat : string) (j : nat) :
  answers checkFile fileExists ->
  (subscript_fails self j ->
   column checkFile self workdir imgFormat j = ([], inl IndexError)) /\
  (~ subscript_fails self j ->
   exists q cs, column checkFile self workdir imgFormat j = (q, inr cs)).
Proof.
  intros Ha. rewrite (column_answers _ _ _ _ fileExists j Ha).
  unfold subscript_fails.
  destruct (nth_error (CplLog._linkNames self) j) as [k |];
    [| split; [reflexivity | intros H; now contradiction H]].
  destruct (extension imgFormat k) as [x |] eqn:Hx.
  - destruct (nth_error (CplLog._expectedPlots self) j) as [p |] eqn:Hp.
    + split.
      * intros [_ Hlen]. apply nth_error_None in Hlen. congruence.
      * intros _. cbv zeta. eauto.
    + split; [reflexivity |]. intros Hn. contradiction Hn. split.
      * unfold extension, recognised in *.
        destruct (contains "timeseries" k); [now left |].
        destruct (contains "table" k); [now right | discriminate].
      * now apply nth_error_None.
  - split.
    + intros [Hr _]. now apply extension_none in Hx.
    + intros _. unfold ret. eauto.
Qed.

(** X2: with a checker that answers without raising, the construction of the
    table of [CplLog] fails exactly when there is a label and one of the two
    iterations of the inner loop subscripts out of range, and it fails with
    [IndexError]; in particular an artifact list that is too short goes
    unnoticed when there is no label or when the link name selects no
    branch. *)
Theorem X2_cpllog_index_error
  (checkFile : string -> string -> exn + (bool * string))
  (fileExists : string -> bool) (self : CplLog.t)
  (workdir imgFormat : string) :
  answers checkFile fileExists ->
  (snd (CplLog.plot_table checkFile self workdir imgFormat) = inl IndexError
   <->
   CplLog._labels self <> [] /\
   exists j, j < CplLog.num_cols - 1 /\ subscript_fails self j) /\
  (forall e,
     snd (CplLog.plot_table checkFile self workdir imgFormat) = inl e ->
     e = IndexError).
Proof.
  intros Ha. rewrite plot_table_eq, columns_eq. unfold CplLog.num_cols.
  destruct (column_index_error checkFile fileExists self workdir imgFormat 0 Ha)
    as [F0 S0].
  destruct (column_index_error checkFile fileExists self workdir imgFormat 1 Ha)
    as [F1 S1].
  assert (D : forall j, subscript_fails self j \/ ~ subscript_fails self j).
  { intros j. unfold subscript_fails, recognised.
    destruct (nth_error (CplLog._linkNames self) j) as [k |]; [| now left].
    destruct (contains "timeseries" k), (contains "table" k),
      (le_dec (length (CplLog._expectedPlots self)) j);
      try (left; split; [solve [auto] | assumption]);
      right; intros [[H | H] H']; try discriminate; contradiction. }
  destruct (CplLog._labels self) as [| l ls].
  { cbn. split; [| discriminate]. split; [discriminate |].
    intros [H _]. now contradiction H. }
  destruct (D 0) as [B0 | G0].
  { rewrite (F0 B0). cbn. split; [| congruence].
    split; [| reflexivity]. intros _. split; [discriminate |].
    exists 0. split; [lia | exact B0]. }
  destruct (S0 G0) as (q0 & cs0 & ->).
  destruct (D 1) as [B1 | G1].
  { rewrite (F1 B1). cbn. split; [| congruence].
    split; [| reflexivity]. intros _. split; [discriminate |].
    exists 1. split; [lia | exact B1]. }
  destruct (S1 G1) as (q1 & cs1 & ->). cbn.
  split; [| discriminate]. split; [discriminate |].
  intros [_ (j & Hj & Hb)].
  assert (j = 0 \/ j = 1) as [-> | ->] by lia; contradiction.
Qed.

Lemma X2_cpllog_index_error_witness :
  snd (CplLog.plot_table all_present one_column "/w" "png") = inl IndexError /\
  snd (CplLog.plot_table all_present
         (cpllog_with [] [] []) "/w" "png") <> inl IndexError.
Proof.
  pose proof (X2_cpllog_index_error all_present (fun _ => true)) as H.
  split.
  - destruct (H one_column "/w" "png") as [[_ Hbwd] _].
    + intros path. exists "". reflexivity.
    + apply Hbwd. split; [discriminate |].
      exists 1. split; [cbn; lia | exact I].
  - intros E.
    destruct (H (cpllog_with [] [] []) "/w" "png") as [[Hfwd _] _].
    + intros path. exists "". reflexivity.
    + destruct (Hfwd E) as [E' _]. now contradiction E'.
Defined.

Lemma column_queries
  (checkFile : string -> string -> exn + (bool * string)) (self : CplLog.t)
  (workdir imgFormat : string) (j : nat) (q : list string)
  (cs : list CplLog.plot_tuple) :
  column checkFile self workdir imgFormat j = (q, inr cs) ->
  Forall2
    (fun path (cell : CplLog.plot_tuple) =>
       fst (fst cell) = j + 1 /\
       exists f,
         path = workdir +:+ "/" +:+ f /\
         (snd cell = f \/ snd cell = f +:+ " - Error"))
    q cs.
Proof.
  intros H. apply column_inv in H.
  destruct H as (k & _ & [(_ & -> & ->) | (x & p & rc & msg & _ & _ & _ & -> & ->)]).
  - constructor.
  - constructor; [| constructor]. split; [reflexivity |].
    exists (p +:+ "." +:+ x). split; [reflexivity |].
    destruct rc; cbn [snd shown]; auto.
Qed.

(** X3: a construction of the table of [CplLog] that succeeds asks the
    checker once per cell that is not a label cell: the paths asked for one
    row, each in the working directory and matching the cell it fills, are
    asked again, in the same order, for every label. *)
Theorem X3_cpllog_queries
  (checkFile : string -> string -> exn + (bool * string)) (self : CplLog.t)
  (workdir imgFormat : string) (q : list string)
  (table : list (list CplLog.plot_tuple)) :
  CplLog.plot_table checkFile self workdir imgFormat = (q, inr table) ->
  exists qrow cells,
    table =
      map (fun label => (0, "label", label +:+ ":") :: cells)
        (CplLog._labels self) /\
    q = concat (map (fun _ => qrow) (CplLog._labels self)) /\
    Forall2
      (fun path (cell : CplLog.plot_tuple) =>
         exists f,
           path = workdir +:+ "/" +:+ f /\
           (snd cell = f \/ snd cell = f +:+ " - Error"))
      qrow cells.
Proof.
  rewrite plot_table_eq.
  destruct (CplLog._labels self) as [| l ls].
  { unfold ret. intros H. injection H as <- <-. exists [], []. auto. }
  destruct (columns checkFile self workdir imgFormat) as [qrow [e | cells]] eqn:Hc;
    [discriminate |].
  intros H. injection H as <- <-. exists qrow, cells.
  split; [reflexivity |]. split; [reflexivity |].
  apply columns_inv in Hc.
  destruct Hc as (q0 & cs0 & q1 & cs1 & H0 & H1 & -> & ->).
  apply Forall2_app;
    [apply column_queries in H0 | apply column_queries in H1];
    match goal with
    | H : Forall2 _ ?a ?b |- Forall2 _ ?a ?b =>
        induction H as [| ? ? ? ? [_ Hx] ? IH]; constructor; auto
    end.
Qed.

Lemma X3_cpllog_queries_witness :
  exists qrow cells,
    [[(0, "label", "Heat:"); (1, "timeseries", "cplheatbudget.png");
      (2, "table", "cplfwbudget.asc - Error")];
     [(0, "label", "Freshwater:"); (1, "timeseries", "cplheatbudget.png");
      (2, "table", "cplfwbudget.asc - Error")]] =
      map (fun label => (0, "label", label +:+ ":") :: cells)
        (CplLog._labels CplLog.__init__) /\
    ["/w/cplheatbudget.png"; "/w/cplfwbudget.asc";
     "/w/cplheatbudget.png"; "/w/cplfwbudget.asc"] =
      concat (map (fun _ => qrow) (CplLog._labels CplLog.__init__)) /\
    Forall2
      (fun path (cell : CplLog.plot_tuple) =>
         exists f,
           path = "/w" +:+ "/" +:+ f /\
           (snd cell = f \/ snd cell = f +:+ " - Error"))
      qrow cells.
Proof.
  apply (X3_cpllog_queries (only_file "/w/cplheatbudget.png") CplLog.__init__
           "/w" "png").
  reflexivity.
Defined.

(** X4: whatever the three lists of a [CplLog] are, a row of a returned table
    never has more than [num_cols = 3] cells, no two of its cells carry the
    same column index, and every column index is below [num_cols]. *)
Theorem X4_cpllog_row_bounds
  (checkFile : string -> string -> exn + (bool * string)) (self : CplLog.t)
  (workdir imgFormat : string) (table : list (list CplLog.plot_tuple))
  (row : list CplLog.plot_tuple) :
  snd (CplLog.plot_table checkFile self workdir imgFormat) = inr table ->
  In row table ->
  length row <= CplLog.num_cols /\
  NoDup (map (fun cell : CplLog.plot_tuple => fst (fst cell)) row) /\
  Forall (fun cell : CplLog.plot_tuple => fst (fst cell) < CplLog.num_cols) row.
Proof.
  intros Ht Hrow.
  destruct (table_inv _ _ _ _ table Ht) as (cs & -> & Hcols).
  apply in_map_iff in Hrow. destruct Hrow as (label & <- & Hlabel).
  destruct Hcols as (q & Hcols & _).
  { intros Hnil. rewrite Hnil in Hlabel. exact Hlabel. }
  apply columns_inv in Hcols.
  destruct Hcols as (q0 & cs0 & q1 & cs1 & H0 & H1 & -> & ->).
  apply column_inv in H0, H1. unfold CplLog.num_cols.
  destruct H0 as (k0 & _ & [(_ & _ & ->) | (x0 & p0 & rc0 & m0 & _ & _ & _ & _ & ->)]);
    destruct H1 as (k1 & _ & [(_ & _ & ->) | (x1 & p1 & rc1 & m1 & _ & _ & _ & _ & ->)]);
    cbn [app map length fst snd label_tuple Nat.add];
    (split; [lia |]);
    (split;
     [repeat (constructor; [cbn; intuition discriminate |]); constructor
     | repeat (constructor; [cbn; lia |]); constructor]).
Qed.

Lemma X4_cpllog_row_bounds_witness :
  length [(0, "label", "Heat:"); (2, "table", "cplfwbudget.asc")] <= 3 /\
  NoDup
    (map (fun cell : CplLog.plot_tuple => fst (fst cell))
       [(0, "label", "Heat:"); (2, "table", "cplfwbudget.asc")]) /\
  Forall (fun cell : CplLog.plot_tuple => fst (fst cell) < 3)
    [(0, "label", "Heat:"); (2, "table", "cplfwbudget.asc")].
Proof.
  apply (X4_cpllog_row_bounds all_present
           (cpllog_with ["Heat"] ["cplheatbudget"; "cplfwbudget"]
              ["image"; "table"]) "/w" "png"
           [[(0, "label", "Heat:"); (2, "table", "cplfwbudget.asc")]]).
  - reflexivity.
  - left. reflexivity.
Defined.

(** *** The test [word in link_name] *)

Lemma contains_unfold (sub s : string) :
  contains sub s =
  String.prefix sub s ||
  match s with
  | EmptyString => false
  | String _ s' => contains sub s'
  end.
Proof. destruct s; reflexivity. Qed.

Lemma prefix_append (sub post : string) :
  String.prefix sub (sub +:+ post) = true.
Proof.
  induction sub as [| c sub IH]; cbn.
  - destruct post; reflexivity.
  - destruct (Ascii.ascii_dec c c) as [_ | N]; [exact IH | now contradiction N].
Qed.

Lemma prefix_inv (sub s : string) :
  String.prefix sub s = true -> exists post, s = sub +:+ post.
Proof.
  revert s. induction sub as [| c sub IH]; intros s H.
  - exists s. reflexivity.
  - destruct s as [| c' s]; cbn in H; [discriminate |].
    destruct (Ascii.ascii_dec c c') as [<- | _]; [| discriminate].
    destruct (IH s H) as [post ->]. exists post. reflexivity.
Qed.

Lemma contains_iff (sub s : string) :
  contains sub s = true <-> exists pre post, s = pre +:+ sub +:+ post.
Proof.
  split.
  - induction s as [| c s IH]; rewrite contains_unfold; intros H;
      apply orb_true_iff in H; destruct H as [H | H].
    + apply prefix_inv in H. destruct H as [post ->]. exists "", post.
      reflexivity.
    + discriminate.
    + apply prefix_inv in H. destruct H as [post ->]. exists "", post.
      reflexivity.
    + destruct (IH H) as (pre & post & ->). exists (String c pre), post.
      reflexivity.
  - intros (pre & post & ->). induction pre as [| c pre IH].
    + rewrite contains_unfold. cbn [String.append].
      now rewrite prefix_append.
    + rewrite contains_unfold. cbn [String.append]. rewrite IH.
      apply orb_true_r.
Qed.

(** X5: the inner loop of [CplLog._create_html] tests link names for
    substrings.  A link name in which "timeseries" occurs anywhere fills its
    cell from the image file; one in which "timeseries" does not occur but
    "table" does, from the [.asc] file; a link name in which neither occurs
    adds no cell and asks the checker nothing. *)
Theorem X5_cpllog_link_name_substring
  (checkFile : string -> string -> exn + (bool * string))
  (fileExists : string -> bool) (self : CplLog.t)
  (workdir imgFormat : string) (j : nat) (k p : string) :
  answers checkFile fileExists ->
  nth_error (CplLog._linkNames self) j = Some k ->
  nth_error (CplLog._expectedPlots self) j = Some p ->
  ((exists pre post, k = pre +:+ "timeseries" +:+ post) ->
   column checkFile self workdir imgFormat j =
   ([workdir +:+ "/" +:+ p +:+ "." +:+ imgFormat],
    inr [(j + 1, k,
          shown (fileExists (workdir +:+ "/" +:+ p +:+ "." +:+ imgFormat))
            (p +:+ "." +:+ imgFormat))])) /\
  ((forall pre post, k <> pre +:+ "timeseries" +:+ post) ->
   (exists pre post, k = pre +:+ "table" +:+ post) ->
   column checkFile self workdir imgFormat j =
   ([workdir +:+ "/" +:+ p +:+ "." +:+ "asc"],
    inr [(j + 1, k,
          shown (fileExists (workdir +:+ "/" +:+ p +:+ "." +:+ "asc"))
            (p +:+ "." +:+ "asc"))])) /\
  ((forall pre post, k <> pre +:+ "timeseries" +:+ post) ->
   (forall pre post, k <> pre +:+ "table" +:+ post) ->
   column checkFile self workdir imgFormat j = ([], inr [])).
Proof.
  intros Ha Hk Hp. rewrite (column_answers _ _ _ _ fileExists j Ha), Hk.
  unfold extension.
  assert (T : forall w, contains w k = false <->
                        forall pre post, k <> pre +:+ w +:+ post).
  { intros w. split.
    - intros H pre post E.
      assert (contains w k = true) by (apply contains_iff; eauto).
      congruence.
    - intros H. destruct (contains w k) eqn:E; [| reflexivity].
      apply contains_iff in E. destruct E as (pre & post & E).
      now apply H in E. }
  repeat split.
  - intros H. apply contains_iff in H. rewrite H, Hp. reflexivity.
  - intros H1 H2. apply T in H1. apply contains_iff in H2.
    rewrite H1, H2, Hp. reflexivity.
  - intros H1 H2. apply T in H1, H2. rewrite H1, H2. reflexivity.
Qed.

Lemma X5_cpllog_link_name_substring_witness :
  column all_missing
    (cpllog_with ["Heat"] ["cplheatbudget"] ["a timeseries table"])
    "/w" "png" 0 =
  (["/w/cplheatbudget.png"],
   inr [(1, "a timeseries table", "cplheatbudget.png - Error")]).
Proof.
  apply (X5_cpllog_link_name_substring all_missing (fun _ => false)
           (cpllog_with ["Heat"] ["cplheatbudget"] ["a timeseries table"])
           "/w" "png" 0 "a timeseries table" "cplheatbudget").
  - intros path. eexists. reflexivity.
  - reflexivity.
  - reflexivity.
  - exists "a ", " table". reflexivity.
Defined.

(** ** [WesternBoundary._create_html] *)

Lemma wb_plot_list_inv
  (checkFile : string -> string -> exn + (bool * string))
  (workdir imgFormat : string) (plots : list string) :
  forall (acc : list string) (q : list string) (l : list string),
    for_each plots (WesternBoundary.plot_body checkFile workdir imgFormat) acc
      = (q, inr l) ->
    q = map (fun p => workdir +:+ "/" +:+ p +:+ "." +:+ imgFormat) plots /\
    exists cells,
      l = acc ++ cells /\
      Forall2 (fun p c => c = p \/ c = p +:+ " - Error") plots cells.
Proof.
  induction plots as [| p plots IH]; intros acc q l H; cbn [for_each] in H.
  - unfold ret in H. injection H as <- <-. split; [reflexivity |].
    exists []. rewrite app_nil_r. auto.
  - unfold WesternBoundary.plot_body at 1, call_checkFile in H.
    cbv zeta in H.
    destruct (checkFile (workdir +:+ "/" +:+ p +:+ "." +:+ imgFormat) "read")
      as [e | [rc msg]]; [discriminate |].
    cbn [bind] in H.
    destruct rc; cbn [negb ret bind] in H;
      match type of H with
      | (let (_, _) := for_each _ _ ?a in _) = _ =>
          destruct (for_each plots
                      (WesternBoundary.plot_body checkFile workdir imgFormat) a)
            as [q' [e' | l']] eqn:E; [discriminate |];
          injection H as <- <-;
          destruct (IH _ _ _ E) as (-> & cells & -> & HF)
      end;
      (split; [reflexivity |]);
      eexists (_ :: cells); rewrite <- app_assoc;
      (split; [reflexivity |]); constructor; auto.
Qed.


Lemma occurs_remove_newlines (s : string) :
  occurs newline (WesternBoundary.remove_newlines s) = false.
Proof.
  induction s as [| c s IH]; [reflexivity |].
  cbn [WesternBoundary.remove_newlines]. fold newline.
  destruct (Ascii.eqb c newline) eqn:E; [exact IH |].
  cbn [occurs]. now rewrite E, IH.
Qed.

Lemma remove_newlines_id (s : string) :
  occurs newline s = false -> WesternBoundary.remove_newlines s = s.
Proof.
  induction s as [| c s IH]; [reflexivity |].
  cbn [occurs WesternBoundary.remove_newlines]. fold newline.
  intros H. apply orb_false_iff in H. destruct H as [-> H].
  now rewrite (IH H).
Qed.

(** X6: when [WesternBoundary._create_html] returns, the template was
    rendered with [cols = 1], the image format, and a table of exactly one
    row holding one cell per expected plot; the string returned is the
    rendered one with every line feed removed, so it contains no line feed,
    and it is the rendered string itself when that has none. *)
Theorem X6_wb_create_html
  (checkFile : string -> string -> exn + (bool * string))
  (render : string -> string -> WesternBoundary.templateVars -> exn + string)
  (wb : WesternBoundary.t) (workdir imgFormat templatePath : string)
  (q : list string) (html : string) :
  WesternBoundary._create_html checkFile render wb workdir imgFormat
    templatePath = (q, inr html) ->
  exists row rendered,
    WesternBoundary.plot_table checkFile wb workdir imgFormat
      = (q, inr [row]) /\
    length row = length (WesternBoundary._expectedPlots wb) /\
    render templatePath (WesternBoundary._template_file wb)
      {| WesternBoundary.title := WesternBoundary._name wb;
         WesternBoundary.cols := 1;
         WesternBoundary.plot_table_var := [row];
         WesternBoundary.imgFormat_var := imgFormat |} = inr rendered /\
    html = WesternBoundary.remove_newlines rendered /\
    occurs newline html = false /\
    (occurs newline rendered = false -> html = rendered).
Proof.
  unfold WesternBoundary._create_html, WesternBoundary.plot_table.
  destruct (for_each (WesternBoundary._expectedPlots wb)
              (WesternBoundary.plot_body checkFile workdir imgFormat) [])
    as [q0 [e | row]] eqn:E; [discriminate |].
  destruct (wb_plot_list_inv _ _ _ _ _ _ _ E) as (Hq & cells & Hrow & HF).
  cbn [bind ret app]. rewrite !app_nil_r.
  match goal with
  | |- context [render ?a ?b ?c] => destruct (render a b c) as [e | rendered] eqn:R
  end; [discriminate |].
  intros H. injection H as <- <-.
  exists row, rendered. split; [now rewrite ?app_nil_r |].
  split. { subst row. cbn [app]. symmetry. exact (Forall2_length HF). }
  split; [exact R |]. split; [reflexivity |].
  split; [apply occurs_remove_newlines | apply remove_newlines_id].
Qed.

Lemma X6_wb_create_html_witness :
  exists row rendered,
    WesternBoundary.plot_table all_present WesternBoundary.__init__ "/w" "png"
      = (["/w/DWBC.png"], inr [row]) /\
    length row = length (WesternBoundary._expectedPlots WesternBoundary.__init__) /\
    (fun (_ _ : string) (_ : WesternBoundary.templateVars) =>
       @inr exn string (String "a" (String newline "b")))
      "/templates" (WesternBoundary._template_file WesternBoundary.__init__)
      {| WesternBoundary.title := WesternBoundary._name WesternBoundary.__init__;
         WesternBoundary.cols := 1;
         WesternBoundary.plot_table_var := [row];
         WesternBoundary.imgFormat_var := "png" |} = inr rendered /\
    "ab" = WesternBoundary.remove_newlines rendered /\
    occurs newline "ab" = false /\
    (occurs newline rendered = false -> "ab" = rendered).
Proof.
  apply (X6_wb_create_html all_present
           (fun _ _ _ => inr (String "a" (String newline "b")))
           WesternBoundary.__init__ "/w" "png" "/templates"
           ["/w/DWBC.png"] "ab").
  reflexivity.
Defined.



(** * [CplLog.check_prerequisites] *)

(** ** Splitting and joining on a character *)

Lemma str_split_cons (sep : Ascii.ascii) (s : string) :
  exists w ws, str_split sep s = w :: ws.
Proof.
  destruct s as [| c s]; cbn [str_split]; [eauto |].
  destruct (Ascii.eqb c sep); [eauto |].
  destruct (str_split sep s); eauto.
Qed.

Lemma str_split_app (sep : Ascii.ascii) (a b : string) :
  str_split sep (a +:+ String sep b) = str_split sep a ++ str_split sep b.
Proof.
  induction a as [| c a IH]; cbn [String.append str_split].
  - now rewrite Ascii.eqb_refl.
  - rewrite IH. destruct (Ascii.eqb c sep); [reflexivity |].
    destruct (str_split_cons sep a) as (w & ws & ->). reflexivity.
Qed.

Lemma str_split_none (sep : Ascii.ascii) (w : string) :
  occurs sep w = false -> str_split sep w = [w].
Proof.
  induction w as [| c w IH]; [reflexivity |].
  cbn [occurs str_split]. intros H. apply orb_false_iff in H.
  destruct H as [-> H]. now rewrite (IH H).
Qed.

Lemma str_split_join (sep : Ascii.ascii) (xs : list string) :
  xs <> [] ->
  str_split sep (str_join (String sep EmptyString) xs)
  = concat (map (str_split sep) xs).
Proof.
  induction xs as [| x xs IH]; [congruence |]. intros _.
  destruct xs as [| y ys].
  - cbn. now rewrite app_nil_r.
  - change (str_join (String sep EmptyString) (x :: y :: ys))
      with (x +:+ String sep (str_join (String sep EmptyString) (y :: ys))).
    rewrite str_split_app, IH by discriminate. reflexivity.
Qed.

Lemma str_join_split (sep : Ascii.ascii) (s : string) :
  str_join (String sep EmptyString) (str_split sep s) = s.
Proof.
  induction s as [| c s IH]; [reflexivity |].
  cbn [str_split]. destruct (Ascii.eqb c sep) eqn:E.
  - apply Ascii.eqb_eq in E. subst c.
    destruct (str_split_cons sep s) as (w & ws & Hs). rewrite Hs in *.
    change (str_join (String sep EmptyString) (EmptyString :: w :: ws))
      with (String sep (str_join (String sep EmptyString) (w :: ws))).
    now rewrite IH.
  - destruct (str_split_cons sep s) as (w & ws & Hs). rewrite Hs in *.
    rewrite <- IH. destruct ws; reflexivity.
Qed.

Lemma concat_split_clean (sep : Ascii.ascii) (xs : list string) :
  Forall (fun x => occurs sep x = false) xs ->
  concat (map (str_split sep) xs) = xs.
Proof.
  induction 1 as [| x xs Hx _ IH]; [reflexivity |].
  cbn [map concat]. now rewrite (str_split_none _ _ Hx), IH.
Qed.

(** ** The two commands *)

Lemma after_ret {St A : Type} (t : list event) (a : A) (s : St) :
  after t (io_ret a s) = (t, s, inr a).
Proof. cbn. now rewrite app_nil_r. Qed.

Lemma str_split_command_line (script y0 y1 : string) (logs : list string) :
  str_split " "%char (command_line script y0 y1 logs) =
  str_split " "%char script ++ str_split " "%char ("y0=" +:+ y0) ++
  str_split " "%char ("y1=" +:+ y1) ++ log_arguments logs.
Proof.
  unfold command_line.
  change (script +:+ " y0=" +:+ y0 +:+ " y1=" +:+ y1 +:+ " "
            +:+ str_join " " logs)
    with (script +:+ String " "
            (("y0=" +:+ y0) +:+ String " "
               (("y1=" +:+ y1) +:+ String " " (str_join " " logs)))).
  rewrite !str_split_app. do 3 f_equal.
  unfold log_arguments. destruct logs as [| l ls]; [reflexivity |].
  now apply (str_split_join " "%char).
Qed.

Section BuildCommands.

Variable os_getcwd : exn + string.
Variable glob_glob : string -> list string.
Variable os_path_abspath : string -> string.

Variable s : CplLog.state.
Variables cplVersion wd tp y0 y1 nh nf cwd : string.

Hypothesis env_WORKDIR : CplLog.st_env s "WORKDIR" = Some wd.
Hypothesis env_TOOLPATH : CplLog.st_env s "TOOLPATH" = Some tp.
Hypothesis env_YEAR0 : CplLog.st_env s "YEAR0" = Some y0.
Hypothesis env_YEAR1 : CplLog.st_env s "YEAR1" = Some y1.
Hypothesis env_ntailht : CplLog.st_env s "ntailht" = Some nh.
Hypothesis env_ntailfw : CplLog.st_env s "ntailfw" = Some nf.
Hypothesis getcwd_ok : os_getcwd = inr cwd.

Let logs := glob_glob (wd +:+ "/cpl.log.*").
Let heatPath :=
  os_path_abspath (tp +:+ "/process_" +:+ cplVersion +:+ "_logfiles_heat.awk").
Let fwPath :=
  os_path_abspath (tp +:+ "/process_" +:+ cplVersion +:+ "_logfiles_fw.awk").

Lemma build_commands_eq :
  CplLog.build_commands os_getcwd glob_glob os_path_abspath cplVersion s =
  ([Glob (wd +:+ "/cpl.log.*"); Getcwd], s,
   inr [(str_split " "%char (command_line heatPath y0 y1 logs),
         "cplheatbudget", nh);
        (str_split " "%char (command_line fwPath y0 y1 logs),
         "cplfwbudget", nf)]).
Proof.
  unfold CplLog.build_commands. cbv zeta.
  repeat (io_simpl;
          rewrite ?env_WORKDIR, ?env_TOOLPATH, ?env_YEAR0, ?env_YEAR1,
            ?env_ntailht, ?env_ntailfw, ?getcwd_ok).
  rewrite after_ret. reflexivity.
Qed.

(** X8: the argument vector of each [awk] command is the formatted command
    line cut at every space: joined by spaces it gives the command line
    back.  It is made of the pieces of the script path, of [y0=YEAR0], of
    [y1=YEAR1] and of each log file name between spaces; when no log file
    matches, the last argument is the empty string. *)
Theorem X8_awk_argument_vector :
  exists heatCmd fwCmd,
    snd (CplLog.build_commands os_getcwd glob_glob os_path_abspath
           cplVersion s)
    = inr [(heatCmd, "cplheatbudget", nh); (fwCmd, "cplfwbudget", nf)] /\
    str_join " " heatCmd = command_line heatPath y0 y1 logs /\
    str_join " " fwCmd = command_line fwPath y0 y1 logs /\
    heatCmd =
      str_split " "%char heatPath ++ str_split " "%char ("y0=" +:+ y0) ++
      str_split " "%char ("y1=" +:+ y1) ++ log_arguments logs /\
    fwCmd =
      str_split " "%char fwPath ++ str_split " "%char ("y0=" +:+ y0) ++
      str_split " "%char ("y1=" +:+ y1) ++ log_arguments logs /\
    (logs = [] -> last heatCmd "?" = "" /\ last fwCmd "?" = "").
Proof.
  rewrite build_commands_eq. do 2 eexists. split; [reflexivity |].
  split; [apply (str_join_split " "%char) |].
  split; [apply (str_join_split " "%char) |].
  split; [apply str_split_command_line |].
  split; [apply str_split_command_line |].
  intros E. rewrite !str_split_command_line, E. cbn [log_arguments].
  rewrite !app_assoc, !last_last. auto.
Qed.

(** X9: when neither the script paths, the years nor the log file names
    contain a space and at least one log file matches, each [awk] command is
    the script path, [y0=YEAR0], [y1=YEAR1] and the log files in the order
    [glob] gave them; the commands carry the lines for [tail] found in
    [env]. *)
Theorem X9_awk_commands_without_spaces :
  occurs " "%char heatPath = false -> occurs " "%char fwPath = false ->
  occurs " "%char y0 = false -> occurs " "%char y1 = false ->
  Forall (fun l => occurs " "%char l = false) logs -> logs <> [] ->
  CplLog.build_commands os_getcwd glob_glob os_path_abspath cplVersion s =
  ([Glob (wd +:+ "/cpl.log.*"); Getcwd], s,
   inr [(heatPath :: ("y0=" +:+ y0) :: ("y1=" +:+ y1) :: logs,
         "cplheatbudget", nh);
        (fwPath :: ("y0=" +:+ y0) :: ("y1=" +:+ y1) :: logs,
         "cplfwbudget", nf)]).
Proof.
  intros Hh Hf H0 H1 Hl Hne.
  rewrite build_commands_eq, !str_split_command_line.
  rewrite !str_split_none by assumption.
  unfold log_arguments. destruct logs as [| l ls] eqn:E; [congruence |].
  rewrite concat_split_clean by exact Hl. reflexivity.
Qed.

End BuildCommands.

Lemma X8_awk_argument_vector_witness :
  exists heatCmd fwCmd,
    snd (CplLog.build_commands (inr "/w") no_logs (fun path => path) "cpl7"
           (with_windows "21" (example_state CplLog.__init__ "7")))
    = inr [(heatCmd, "cplheatbudget", "21"); (fwCmd, "cplfwbudget", "16")] /\
    str_join " " heatCmd =
      command_line "/tools/process_cpl7_logfiles_heat.awk" "1" "20" [] /\
    str_join " " fwCmd =
      command_line "/tools/process_cpl7_logfiles_fw.awk" "1" "20" [] /\
    heatCmd = ["/tools/process_cpl7_logfiles_heat.awk"; "y0=1"; "y1=20"; ""] /\
    fwCmd = ["/tools/process_cpl7_logfiles_fw.awk"; "y0=1"; "y1=20"; ""] /\
    (no_logs "/w/cpl.log.*" = [] ->
     last heatCmd "?" = "" /\ last fwCmd "?" = "").
Proof.
  apply (X8_awk_argument_vector (inr "/w") no_logs (fun path => path)
           (with_windows "21" (example_state CplLog.__init__ "7"))
           "cpl7" "/w" "/tools" "1" "20" "21" "16" "/w");
    reflexivity.
Defined.

Lemma X9_awk_commands_without_spaces_witness :
  CplLog.build_commands (inr "/w") two_logs (fun path => path) "cpl7b"
    (with_windows "22" (example_state CplLog.__init__ "7b")) =
  ([Glob "/w/cpl.log.*"; Getcwd],
   with_windows "22" (example_state CplLog.__init__ "7b"),
   inr [(["/tools/process_cpl7b_logfiles_heat.awk"; "y0=1"; "y1=20";
          "/w/cpl.log.1"; "/w/cpl.log.2"], "cplheatbudget", "22");
        (["/tools/process_cpl7b_logfiles_fw.awk"; "y0=1"; "y1=20";
          "/w/cpl.log.1"; "/w/cpl.log.2"], "cplfwbudget", "16")]).
Proof.
  apply (X9_awk_commands_without_spaces (inr "/w") two_logs (fun path => path)
           (with_windows "22" (example_state CplLog.__init__ "7b"))
           "cpl7b" "/w" "/tools" "1" "20" "22" "16" "/w");
    try reflexivity.
  - repeat constructor.
  - discriminate.
Defined.

(** ** The coupler version *)

(** X10: lines 63 to 72 choose the coupler version from [env['TS_CPL']]:
    "cpl6" or "cpl7" when the value is exactly "6" or "7", with 21 lines of
    the heat budget kept, and "cpl7b" with 22 lines for any other value; the
    freshwater budget always keeps 16 lines.  The two numbers are written to
    [env] and to [os.environ], every other key and the object are left as
    they were.  Without the key [TS_CPL] the method raises [KeyError] after
    the default numbers have been written. *)
Theorem X10_select_version (s : CplLog.state) :
  match CplLog.st_env s "TS_CPL" with
  | Some ts =>
      exists s',
        CplLog.select_version s =
          ([], s', inr (if uses_cpl67 ts then "cpl" +:+ ts else "cpl7b")) /\
        (uses_cpl67 ts = true <-> ts = "6" \/ ts = "7") /\
        CplLog.st_env s' "ntailht"
          = Some (if uses_cpl67 ts then "21" else "22") /\
        CplLog.st_env s' "ntailfw" = Some "16" /\
        CplLog.st_environ s' "ntailht"
          = Some (if uses_cpl67 ts then "21" else "22") /\
        CplLog.st_environ s' "ntailfw" = Some "16" /\
        (forall k, k <> "ntailht" -> k <> "ntailfw" ->
           CplLog.st_env s' k = CplLog.st_env s k /\
           CplLog.st_environ s' k = CplLog.st_environ s k) /\
        CplLog.st_self s' = CplLog.st_self s
  | None =>
      exists s',
        CplLog.select_version s = ([], s', inl (KeyError "TS_CPL")) /\
        CplLog.st_env s' "ntailht" = Some "22" /\
        CplLog.st_env s' "ntailfw" = Some "16" /\
        CplLog.st_self s' = CplLog.st_self s
  end.
Proof.
  rewrite select_version_eq.
  destruct (CplLog.st_env s "TS_CPL") as [ts |].
  - assert (U : uses_cpl67 ts = true <-> ts = "6" \/ ts = "7").
    { unfold uses_cpl67. rewrite orb_true_iff, !String.eqb_eq.
      intuition congruence. }
    destruct (uses_cpl67 ts); eexists; (split; [reflexivity |]);
      (split; [exact U |]);
      cbn [with_windows CplLog.st_env CplLog.st_environ CplLog.st_self];
      repeat split;
      try (rewrite ?dict_set_same, ?dict_set_other by discriminate;
           rewrite ?dict_set_same; reflexivity);
      rewrite !dict_set_other by assumption; reflexivity.
  - eexists. split; [reflexivity |].
    cbn [with_windows CplLog.st_env CplLog.st_environ CplLog.st_self].
    repeat split;
      rewrite ?dict_set_same, ?dict_set_other by discriminate;
      rewrite ?dict_set_same; reflexivity.
Qed.

(** ** The loop over the commands *)

Section RunCmd.

Variable checkFile : string -> string -> exn + (bool * string).
Variable open_ : string -> string -> exn + unit.
Variable subprocess_check_call :
  list string -> option string -> dict -> call_result.

Local Abbreviation run_cmd :=
  (CplLog.run_cmd checkFile open_ subprocess_check_call).

(** One command, case by case. *)
Lemma run_cmd_eq (c0 : list string) (c1 c2 : string) (s : CplLog.state) :
  run_cmd (c0, c1, c2) s =
  let txt := c1 +:+ ".txt" in
  let asc := c1 +:+ ".asc" in
  match open_ txt "w" with
  | inl e => ([Open txt "w"], s, inl e)
  | inr _ =>
      match subprocess_check_call c0 (Some txt) (CplLog.st_env s) with
      | CallRaised e =>
          ([Open txt "w"; CheckCall c0 (Some txt); Close txt], s, inl e)
      | CalledProcessError _ =>
          ([Open txt "w"; CheckCall c0 (Some txt); Close txt],
           awk_failed s, inr tt)
      | Exit0 =>
          match checkFile txt "read" with
          | inl e =>
              ([Open txt "w"; CheckCall c0 (Some txt); CheckFile txt "read";
                Close txt], s, inl e)
          | inr (false, _) =>
              ([Open txt "w"; CheckCall c0 (Some txt); CheckFile txt "read";
                Close txt], s, inr tt)
          | inr (true, _) =>
              match open_ asc "w" with
              | inl e =>
                  ([Open txt "w"; CheckCall c0 (Some txt);
                    CheckFile txt "read"; Open asc "w"; Close txt], s, inl e)
              | inr _ =>
                  ([Open txt "w"; CheckCall c0 (Some txt);
                    CheckFile txt "read"; Open asc "w";
                    CheckCall (tail_command c2 c1) (Some asc);
                    Close asc; Close txt], s,
                   match
                     subprocess_check_call (tail_command c2 c1) (Some asc)
                       (CplLog.st_env s)
                   with
                   | CallRaised e => inl e
                   | _ => inr tt
                   end)
              end
          end
      end
  end.
Proof.
  unfold CplLog.run_cmd, with_open, CplLog.check_call, perform, io_bind,
    io_ret, awk_failed, tail_command. cbv zeta.
  destruct (open_ (c1 +:+ ".txt") "w") as [e | u]; [reflexivity |].
  destruct (subprocess_check_call c0 (Some (c1 +:+ ".txt")) (CplLog.st_env s))
    as [| n | e]; try reflexivity.
  destruct (checkFile (c1 +:+ ".txt") "read") as [e | [[|] msg]];
    try reflexivity.
  destruct (open_ (c1 +:+ ".asc") "w") as [e | u']; [reflexivity |].
  destruct (subprocess_check_call
              (str_split " "%char ("tail -" +:+ c2 +:+ " " +:+ c1 +:+ ".txt"))
              (Some (c1 +:+ ".asc")) (CplLog.st_env s)) as [| n | e];
    reflexivity.
Qed.

Lemma io_for_each_cons {St X : Type} (x : X) (xs : list X)
  (body : X -> io St unit) (s : St) :
  io_for_each (x :: xs) body s =
  match body x s with
  | (t, s', inl e) => (t, s', inl e)
  | (t, s', inr _) => after t (io_for_each xs body s')
  end.
Proof. reflexivity. Qed.

(** X11: a command whose [awk] run succeeds and whose [.txt] file is readable
    opens the [.asc] file and runs [tail] on it; whether [tail] exits with
    status 0 or not makes no difference: the state, both flags included, is
    unchanged and the loop goes on with the next command. *)
Theorem X11_command_completes (c0 : list string) (c1 c2 msg : string)
  (rest : list CplLog.cmd) (s : CplLog.state) :
  open_ (c1 +:+ ".txt") "w" = inr tt ->
  subprocess_check_call c0 (Some (c1 +:+ ".txt")) (CplLog.st_env s) = Exit0 ->
  checkFile (c1 +:+ ".txt") "read" = inr (true, msg) ->
  open_ (c1 +:+ ".asc") "w" = inr tt ->
  (forall e,
     subprocess_check_call (tail_command c2 c1) (Some (c1 +:+ ".asc"))
       (CplLog.st_env s) <> CallRaised e) ->
  io_for_each ((c0, c1, c2) :: rest) run_cmd s =
  after
    [Open (c1 +:+ ".txt") "w"; CheckCall c0 (Some (c1 +:+ ".txt"));
     CheckFile (c1 +:+ ".txt") "read"; Open (c1 +:+ ".asc") "w";
     CheckCall (tail_command c2 c1) (Some (c1 +:+ ".asc"));
     Close (c1 +:+ ".asc"); Close (c1 +:+ ".txt")]
    (io_for_each rest run_cmd s).
Proof.
  intros H1 H2 H3 H4 H5. rewrite io_for_each_cons, run_cmd_eq. cbv zeta.
  rewrite H1, H2, H3, H4.
  destruct (subprocess_check_call (tail_command c2 c1) (Some (c1 +:+ ".asc"))
              (CplLog.st_env s)) as [| n | e] eqn:E;
    [reflexivity | reflexivity | now contradiction (H5 e)].
Qed.

(** X12: a command whose [awk] run exits with a non-zero status sets
    [self._awkError], writes no [.asc] file and does not stop the loop: the
    next command is run from the state with the flag set, [env] being
    unchanged. *)
Theorem X12_awk_failure_is_flagged (c0 : list string) (c1 c2 : string)
  (returncode : Z) (rest : list CplLog.cmd) (s : CplLog.state) :
  open_ (c1 +:+ ".txt") "w" = inr tt ->
  subprocess_check_call c0 (Some (c1 +:+ ".txt")) (CplLog.st_env s)
    = CalledProcessError returncode ->
  io_for_each ((c0, c1, c2) :: rest) run_cmd s =
  after
    [Open (c1 +:+ ".txt") "w"; CheckCall c0 (Some (c1 +:+ ".txt"));
     Close (c1 +:+ ".txt")]
    (io_for_each rest run_cmd (awk_failed s)) /\
  CplLog._awkError (CplLog.st_self (awk_failed s)) = true /\
  CplLog._tailError (CplLog.st_self (awk_failed s))
    = CplLog._tailError (CplLog.st_self s) /\
  CplLog.st_env (awk_failed s) = CplLog.st_env s.
Proof.
  intros H1 H2. rewrite io_for_each_cons, run_cmd_eq. cbv zeta.
  rewrite H1, H2. repeat split.
Qed.

(** X13: a command raises exactly when a file cannot be opened, when the
    checker raises, or when [awk] or [tail] raise something other than
    [subprocess.CalledProcessError], for instance because the program cannot
    be started; the exception is the one received, the state is unchanged
    and the commands after it are not run. *)
Theorem X13_command_raises (c0 : list string) (c1 c2 : string)
  (rest : list CplLog.cmd) (s : CplLog.state) (e : exn) :
  (snd (run_cmd (c0, c1, c2) s) = inl e <->
   open_ (c1 +:+ ".txt") "w" = inl e \/
   (exists u, open_ (c1 +:+ ".txt") "w" = inr u) /\
   (subprocess_check_call c0 (Some (c1 +:+ ".txt")) (CplLog.st_env s)
      = CallRaised e \/
    subprocess_check_call c0 (Some (c1 +:+ ".txt")) (CplLog.st_env s)
      = Exit0 /\
    (checkFile (c1 +:+ ".txt") "read" = inl e \/
     (exists msg, checkFile (c1 +:+ ".txt") "read" = inr (true, msg)) /\
     (open_ (c1 +:+ ".asc") "w" = inl e \/
      (exists u, open_ (c1 +:+ ".asc") "w" = inr u) /\
      subprocess_check_call (tail_command c2 c1) (Some (c1 +:+ ".asc"))
        (CplLog.st_env s) = CallRaised e)))) /\
  (snd (run_cmd (c0, c1, c2) s) = inl e ->
   io_for_each ((c0, c1, c2) :: rest) run_cmd s =
   (fst (fst (run_cmd (c0, c1, c2) s)), s, inl e)).
Proof.
  rewrite io_for_each_cons, run_cmd_eq. cbv zeta.
  destruct (open_ (c1 +:+ ".txt") "w") as [e1 | u].
  { cbn. split; [| congruence]. split; [intros H; left; congruence |].
    intros [H | [[u H] _]]; congruence. }
  destruct (subprocess_check_call c0 (Some (c1 +:+ ".txt")) (CplLog.st_env s))
    as [| n | e2].
  2:{ cbn. split; [| discriminate]. split; [discriminate |].
      intros [H | [_ [H | [H _]]]]; discriminate. }
  2:{ cbn. split; [| congruence]. split.
      - intros H. right. split; [eauto |]. left. congruence.
      - intros [H | [_ [H | [H _]]]]; congruence. }
  destruct (checkFile (c1 +:+ ".txt") "read") as [e3 | [[|] msg]].
  { cbn. split; [| congruence]. split.
    - intros H. right. split; [eauto |]. right. split; [reflexivity |].
      left. congruence.
    - intros [H | [_ [H | [_ [H | [[m H] _]]]]]]; congruence. }
  2:{ cbn. split; [| discriminate]. split; [discriminate |].
      intros [H | [_ [H | [_ [H | [[m H] _]]]]]]; congruence. }
  destruct (open_ (c1 +:+ ".asc") "w") as [e4 | u'].
  { cbn. split; [| congruence]. split.
    - intros H. right. split; [eauto |]. right. split; [reflexivity |].
      right. split; [eauto |]. left. congruence.
    - intros [H | [_ [H | [_ [H | [_ [H | [[u' H] _]]]]]]]]; congruence. }
  destruct (subprocess_check_call (tail_command c2 c1) (Some (c1 +:+ ".asc"))
              (CplLog.st_env s)) as [| n | e5];
    cbn; (split; [| congruence]); split;
    try discriminate;
    try (intros [H | [_ [H | [_ [H | [_ [H | [_ H]]]]]]]]; congruence).
  intros H. right. split; [eauto |]. right. split; [reflexivity |].
  right. split; [eauto |]. right. split; [eauto |]. congruence.
Qed.

(** X14: when the [.txt] file written by [awk] is reported unreadable, the
    command produces no [.asc] file, runs no [tail], sets no flag, and the
    loop goes on with the next command. *)
Theorem X14_unreadable_output_is_skipped (c0 : list string)
  (c1 c2 msg : string) (rest : list CplLog.cmd) (s : CplLog.state) :
  open_ (c1 +:+ ".txt") "w" = inr tt ->
  subprocess_check_call c0 (Some (c1 +:+ ".txt")) (CplLog.st_env s) = Exit0 ->
  checkFile (c1 +:+ ".txt") "read" = inr (false, msg) ->
  io_for_each ((c0, c1, c2) :: rest) run_cmd s =
  after
    [Open (c1 +:+ ".txt") "w"; CheckCall c0 (Some (c1 +:+ ".txt"));
     CheckFile (c1 +:+ ".txt") "read"; Close (c1 +:+ ".txt")]
    (io_for_each rest run_cmd s).
Proof.
  intros H1 H2 H3. rewrite io_for_each_cons, run_cmd_eq. cbv zeta.
  rewrite H1, H2, H3. reflexivity.
Qed.

Lemma awk_failed_twice (s : CplLog.state) :
  awk_failed (awk_failed s) = awk_failed s.
Proof. reflexivity. Qed.

Lemma run_cmd_state (c : CplLog.cmd) (s : CplLog.state) :
  match run_cmd c s with
  | (_, s', r) =>
      (s' = s \/ s' = awk_failed s) /\
      (r = inr tt ->
       s' = if awk_fails subprocess_check_call (CplLog.st_env s) c
            then awk_failed s else s)
  end.
Proof.
  destruct c as [[c0 c1] c2]. rewrite run_cmd_eq. cbv zeta.
  unfold awk_fails. cbn [fst snd].
  destruct (open_ (c1 +:+ ".txt") "w") as [e | u];
    [split; [auto | discriminate] |].
  destruct (subprocess_check_call c0 (Some (c1 +:+ ".txt")) (CplLog.st_env s))
    as [| n | e]; try (split; [auto | try discriminate; auto]).
  destruct (checkFile (c1 +:+ ".txt") "read") as [e | [[|] msg]];
    try (split; [auto | try discriminate; auto]).
  destruct (open_ (c1 +:+ ".asc") "w") as [e | u'];
    split; auto; discriminate.
Qed.

(** X15: whatever the commands and the outside world do, the loop leaves
    [env], [os.environ] and the object as they were, except that it may set
    [self._awkError]; [self._tailError] is never written.  When the loop
    ends normally, [self._awkError] has been set exactly if the [awk] run of
    some command exited with a non-zero status. *)
Theorem X15_loop_state (cmds : list CplLog.cmd) (s s' : CplLog.state)
  (t : list event) (r : exn + unit) :
  io_for_each cmds run_cmd s = (t, s', r) ->
  (s' = s \/ s' = awk_failed s) /\
  CplLog._tailError (CplLog.st_self s') = CplLog._tailError (CplLog.st_self s) /\
  CplLog.st_env s' = CplLog.st_env s /\
  CplLog.st_environ s' = CplLog.st_environ s /\
  (r = inr tt ->
   s' = if existsb (awk_fails subprocess_check_call (CplLog.st_env s)) cmds
        then awk_failed s else s).
Proof.
  assert (Main :
    forall cmds s s' t r,
      io_for_each cmds run_cmd s = (t, s', r) ->
      (s' = s \/ s' = awk_failed s) /\
      (r = inr tt ->
       s' = if existsb (awk_fails subprocess_check_call (CplLog.st_env s)) cmds
            then awk_failed s else s)).
  { clear. induction cmds as [| c cmds IH]; intros s s' t r H.
    - cbn in H. injection H as <- <- <-. auto.
    - rewrite io_for_each_cons in H.
      pose proof (run_cmd_state c s) as Hc.
      destruct (run_cmd c s) as [[t1 s1] [e | []]].
      + injection H as <- <- <-. destruct Hc as [Hc _].
        split; [exact Hc | discriminate].
      + destruct Hc as [Hc1 Hc2]. specialize (Hc2 eq_refl).
        destruct (io_for_each cmds run_cmd s1) as [[t2 s2] r2] eqn:E.
        cbn [after] in H. injection H as <- <- <-.
        destruct (IH _ _ _ _ E) as [I1 I2].
        assert (Env : CplLog.st_env s1 = CplLog.st_env s)
          by (destruct Hc1 as [-> | ->]; reflexivity).
        rewrite Env in I2. cbn [existsb].
        destruct (awk_fails subprocess_check_call (CplLog.st_env s) c);
          subst s1; cbn [orb].
        * split.
          -- right. destruct I1 as [-> | ->]; reflexivity.
          -- intros Hr. rewrite (I2 Hr).
             destruct (existsb _ cmds); reflexivity.
        * split; [exact I1 | exact I2]. }
  intros H. destruct (Main _ _ _ _ _ H) as [M1 M2].
  split; [exact M1 |].
  repeat split; try (destruct M1 as [-> | ->]; reflexivity). exact M2.
Qed.

End RunCmd.

Lemma X11_command_completes_witness :
  io_for_each [(["awk"], "cplheatbudget", "22")]
    (CplLog.run_cmd all_present open_ok
       (call_answers "cplheatbudget.asc" (CalledProcessError 1)))
    (example_state CplLog.__init__ "7b") =
  ([Open "cplheatbudget.txt" "w";
    CheckCall ["awk"] (Some "cplheatbudget.txt");
    CheckFile "cplheatbudget.txt" "read"; Open "cplheatbudget.asc" "w";
    CheckCall ["tail"; "-22"; "cplheatbudget.txt"] (Some "cplheatbudget.asc");
    Close "cplheatbudget.asc"; Close "cplheatbudget.txt"],
   example_state CplLog.__init__ "7b", inr tt).
Proof.
  apply (X11_command_completes all_present open_ok
           (call_answers "cplheatbudget.asc" (CalledProcessError 1))
           ["awk"] "cplheatbudget" "22" "" []
           (example_state CplLog.__init__ "7b"));
    try reflexivity.
  intros e. discriminate.
Defined.

Lemma X12_awk_failure_is_flagged_witness :
  io_for_each [(["awk"], "cplheatbudget", "22")]
    (CplLog.run_cmd all_present open_ok
       (call_answers "cplheatbudget.txt" (CalledProcessError 2)))
    (example_state CplLog.__init__ "7b") =
  ([Open "cplheatbudget.txt" "w";
    CheckCall ["awk"] (Some "cplheatbudget.txt"); Close "cplheatbudget.txt"],
   awk_failed (example_state CplLog.__init__ "7b"), inr tt) /\
  CplLog._awkError
    (CplLog.st_self (awk_failed (example_state CplLog.__init__ "7b"))) = true.
Proof.
  destruct (X12_awk_failure_is_flagged all_present open_ok
              (call_answers "cplheatbudget.txt" (CalledProcessError 2))
              ["awk"] "cplheatbudget" "22" 2%Z []
              (example_state CplLog.__init__ "7b"))
    as (H1 & H2 & _); try reflexivity.
  split; [exact H1 | exact H2].
Defined.

Lemma X13_command_raises_witness :
  io_for_each [(["awk"], "cplheatbudget", "22"); (["awk"], "cplfwbudget", "16")]
    (CplLog.run_cmd all_present open_ok
       (call_answers "cplheatbudget.txt"
          (CallRaised (OtherError "OSError: awk"))))
    (example_state CplLog.__init__ "7b") =
  ([Open "cplheatbudget.txt" "w";
    CheckCall ["awk"] (Some "cplheatbudget.txt"); Close "cplheatbudget.txt"],
   example_state CplLog.__init__ "7b", inl (OtherError "OSError: awk")).
Proof.
  apply (X13_command_raises all_present open_ok
           (call_answers "cplheatbudget.txt"
              (CallRaised (OtherError "OSError: awk")))
           ["awk"] "cplheatbudget" "22" [(["awk"], "cplfwbudget", "16")]
           (example_state CplLog.__init__ "7b") (OtherError "OSError: awk")).
  reflexivity.
Defined.

Lemma X14_unreadable_output_is_skipped_witness :
  io_for_each [(["awk"], "cplheatbudget", "22")]
    (CplLog.run_cmd all_missing open_ok
       (call_answers "" (CalledProcessError 1)))
    (example_state CplLog.__init__ "7b") =
  ([Open "cplheatbudget.txt" "w";
    CheckCall ["awk"] (Some "cplheatbudget.txt");
    CheckFile "cplheatbudget.txt" "read"; Close "cplheatbudget.txt"],
   example_state CplLog.__init__ "7b", inr tt).
Proof.
  apply (X14_unreadable_output_is_skipped all_missing open_ok
           (call_answers "" (CalledProcessError 1))
           ["awk"] "cplheatbudget" "22" "cplheatbudget.txt does not exist" []
           (example_state CplLog.__init__ "7b"));
    reflexivity.
Defined.

Lemma X15_loop_state_witness :
  (awk_failed (example_state CplLog.__init__ "7b")
     = example_state CplLog.__init__ "7b" \/
   awk_failed (example_state CplLog.__init__ "7b")
     = awk_failed (example_state CplLog.__init__ "7b")) /\
  CplLog._tailError
    (CplLog.st_self (awk_failed (example_state CplLog.__init__ "7b")))
    = false.
Proof.
  destruct (X15_loop_state all_present open_ok
              (call_answers "cplfwbudget.txt" (CalledProcessError 2))
              [(["awk"], "cplheatbudget", "22"); (["awk"], "cplfwbudget", "16")]
              (example_state CplLog.__init__ "7b")
              (awk_failed (example_state CplLog.__init__ "7b"))
              [Open "cplheatbudget.txt" "w";
               CheckCall ["awk"] (Some "cplheatbudget.txt");
               CheckFile "cplheatbudget.txt" "read";
               Open "cplheatbudget.asc" "w";
               CheckCall ["tail"; "-22"; "cplheatbudget.txt"]
                 (Some "cplheatbudget.asc");
               Close "cplheatbudget.asc"; Close "cplheatbudget.txt";
               Open "cplfwbudget.txt" "w";
               CheckCall ["awk"] (Some "cplfwbudget.txt");
               Close "cplfwbudget.txt"]
              (inr tt))
    as (H1 & H2 & _); [reflexivity |].
  split; [exact H1 | exact H2].
Defined.

(** ** The whole method *)

Lemma env_with_windows (ht k : string) (s : CplLog.state) :
  k <> "ntailht" -> k <> "ntailfw" ->
  CplLog.st_env (with_windows ht s) k = CplLog.st_env s k.
Proof.
  intros H1 H2. cbn [with_windows CplLog.st_env].
  now rewrite !dict_set_other by assumption.
Qed.

Lemma env_with_windows_ht (ht : string) (s : CplLog.state) :
  CplLog.st_env (with_windows ht s) "ntailht" = Some ht.
Proof.
  cbn [with_windows CplLog.st_env].
  rewrite dict_set_other by discriminate. apply dict_set_same.
Qed.

Lemma env_with_windows_fw (ht : string) (s : CplLog.state) :
  CplLog.st_env (with_windows ht s) "ntailfw" = Some "16".
Proof. cbn [with_windows CplLog.st_env]. apply dict_set_same. Qed.

Section CheckPrerequisites.

Variable checkFile : string -> string -> exn + (bool * string).
Variable super_check_prerequisites : io CplLog.state unit.
Variable os_chdir : string -> exn + unit.
Variable os_getcwd : exn + string.
Variable glob_glob : string -> list string.
Variable os_path_abspath : string -> string.
Variable open_ : string -> string -> exn + unit.
Variable subprocess_check_call :
  list string -> option string -> dict -> call_result.

Local Abbreviation check_prerequisites :=
  (CplLog.check_prerequisites checkFile super_check_prerequisites os_chdir
     os_getcwd glob_glob os_path_abspath open_ subprocess_check_call).

Variables s0 s1 : CplLog.state.
Variable t0 : list event.
Hypothesis super_returns : super_check_prerequisites s0 = (t0, s1, inr tt).

(** The state in which the commands are run. *)
Let s2 (ts : string) : CplLog.state :=
  if uses_cpl67 ts then with_windows "21" (with_windows "22" s1)
  else with_windows "22" s1.

Lemma check_prerequisites_commands (wd ts tp y0 y1 cwd : string) :
  CplLog.st_env s1 "WORKDIR" = Some wd ->
  CplLog.st_env s1 "TS_CPL" = Some ts ->
  CplLog.st_env s1 "TOOLPATH" = Some tp ->
  CplLog.st_env s1 "YEAR0" = Some y0 ->
  CplLog.st_env s1 "YEAR1" = Some y1 ->
  os_chdir wd = inr tt ->
  os_getcwd = inr cwd ->
  check_prerequisites s0 =
  after (t0 ++ [Chdir wd; Glob (wd +:+ "/cpl.log.*"); Getcwd])
    (io_for_each
       [(str_split " "%char
           (command_line
              (os_path_abspath
                 (tp +:+ "/process_"
                     +:+ (if uses_cpl67 ts then "cpl" +:+ ts else "cpl7b")
                     +:+ "_logfiles_heat.awk"))
              y0 y1 (glob_glob (wd +:+ "/cpl.log.*"))),
         "cplheatbudget", if uses_cpl67 ts then "21" else "22");
        (str_split " "%char
           (command_line
              (os_path_abspath
                 (tp +:+ "/process_"
                     +:+ (if uses_cpl67 ts then "cpl" +:+ ts else "cpl7b")
                     +:+ "_logfiles_fw.awk"))
              y0 y1 (glob_glob (wd +:+ "/cpl.log.*"))),
         "cplfwbudget", "16")]
       (CplLog.run_cmd checkFile open_ subprocess_check_call)
       (s2 ts)).
Proof.
  intros Hwd Hts Htp Hy0 Hy1 Hcd Hcwd.
  unfold CplLog.check_prerequisites.
  rewrite io_bind_eq, super_returns. io_simpl. rewrite Hwd. io_simpl.
  rewrite Hcd. cbv iota. rewrite after_after.
  rewrite io_bind_eq, select_version_eq, Hts. unfold s2.
  destruct (uses_cpl67 ts); rewrite after_after, io_bind_eq.
  - rewrite (build_commands_eq os_getcwd glob_glob os_path_abspath
               (with_windows "21" (with_windows "22" s1)) ("cpl" +:+ ts)
               wd tp y0 y1 "21" "16" cwd);
      rewrite ?env_with_windows by discriminate;
      try assumption;
      [| apply env_with_windows_ht | apply env_with_windows_fw].
    rewrite after_after, !app_nil_r, <- app_assoc. reflexivity.
  - rewrite (build_commands_eq os_getcwd glob_glob os_path_abspath
               (with_windows "22" s1) "cpl7b" wd tp y0 y1 "22" "16" cwd);
      rewrite ?env_with_windows by discriminate;
      try assumption;
      [| apply env_with_windows_ht | apply env_with_windows_fw].
    rewrite after_after, !app_nil_r, <- app_assoc. reflexivity.
Qed.

(** X16: when the base class method returns, the five keys are in [env], and
    [chdir] and [getcwd] succeed, [check_prerequisites] runs exactly two
    commands, heat budget first: the script
    [TOOLPATH/process_<version>_logfiles_{heat,fw}.awk] made absolute, with
    [y0=YEAR0], [y1=YEAR1] and the files matching [WORKDIR/cpl.log.*], the
    version and the lines for [tail] being those of X10.  Before the
    commands it has changed directory to [WORKDIR] and expanded the
    pattern. *)
Theorem X16_check_prerequisites_commands (wd ts tp y0 y1 cwd : string) :
  CplLog.st_env s1 "WORKDIR" = Some wd ->
  CplLog.st_env s1 "TS_CPL" = Some ts ->
  CplLog.st_env s1 "TOOLPATH" = Some tp ->
  CplLog.st_env s1 "YEAR0" = Some y0 ->
  CplLog.st_env s1 "YEAR1" = Some y1 ->
  os_chdir wd = inr tt ->
  os_getcwd = inr cwd ->
  let version := if uses_cpl67 ts then "cpl" +:+ ts else "cpl7b" in
  let script kind :=
    os_path_abspath
      (tp +:+ "/process_" +:+ version +:+ "_logfiles_" +:+ kind +:+ ".awk") in
  let logs := glob_glob (wd +:+ "/cpl.log.*") in
  check_prerequisites s0 =
  after (t0 ++ [Chdir wd; Glob (wd +:+ "/cpl.log.*"); Getcwd])
    (io_for_each
       [(str_split " "%char (command_line (script "heat") y0 y1 logs),
         "cplheatbudget", if uses_cpl67 ts then "21" else "22");
        (str_split " "%char (command_line (script "fw") y0 y1 logs),
         "cplfwbudget", "16")]
       (CplLog.run_cmd checkFile open_ subprocess_check_call)
       (if uses_cpl67 ts then with_windows "21" (with_windows "22" s1)
        else with_windows "22" s1)).
Proof.
  intros Hwd Hts Htp Hy0 Hy1 Hcd Hcwd. cbv zeta.
  exact (check_prerequisites_commands wd ts tp y0 y1 cwd
           Hwd Hts Htp Hy0 Hy1 Hcd Hcwd).
Qed.

(** X17: when, moreover, every file opens, every program exits with status
    0 and the checker finds the two [.txt] files, [check_prerequisites]
    returns after this sequence of actions: for the heat budget and then for
    the freshwater budget, open [<budget>.txt], run the [awk] command into
    it, check it, open [<budget>.asc], run [tail] with the number of lines
    into it, close both.  The object is unchanged, no flag is set, and
    [env] holds the two numbers of lines. *)
Theorem X17_check_prerequisites_succeeds (wd ts tp y0 y1 cwd : string) :
  CplLog.st_env s1 "WORKDIR" = Some wd ->
  CplLog.st_env s1 "TS_CPL" = Some ts ->
  CplLog.st_env s1 "TOOLPATH" = Some tp ->
  CplLog.st_env s1 "YEAR0" = Some y0 ->
  CplLog.st_env s1 "YEAR1" = Some y1 ->
  os_chdir wd = inr tt ->
  os_getcwd = inr cwd ->
  (forall path mode, open_ path mode = inr tt) ->
  (forall args stdout env, subprocess_check_call args stdout env = Exit0) ->
  (forall path, exists msg, checkFile path "read" = inr (true, msg)) ->
  let version := if uses_cpl67 ts then "cpl" +:+ ts else "cpl7b" in
  let script kind :=
    os_path_abspath
      (tp +:+ "/process_" +:+ version +:+ "_logfiles_" +:+ kind +:+ ".awk") in
  let logs := glob_glob (wd +:+ "/cpl.log.*") in
  let lines := if uses_cpl67 ts then "21" else "22" in
  exists s',
    check_prerequisites s0 =
    (t0 ++
     [Chdir wd; Glob (wd +:+ "/cpl.log.*"); Getcwd;
      Open "cplheatbudget.txt" "w";
      CheckCall (str_split " "%char (command_line (script "heat") y0 y1 logs))
        (Some "cplheatbudget.txt");
      CheckFile "cplheatbudget.txt" "read";
      Open "cplheatbudget.asc" "w";
      CheckCall ["tail"; "-" +:+ lines; "cplheatbudget.txt"]
        (Some "cplheatbudget.asc");
      Close "cplheatbudget.asc"; Close "cplheatbudget.txt";
      Open "cplfwbudget.txt" "w";
      CheckCall (str_split " "%char (command_line (script "fw") y0 y1 logs))
        (Some "cplfwbudget.txt");
      CheckFile "cplfwbudget.txt" "read";
      Open "cplfwbudget.asc" "w";
      CheckCall ["tail"; "-16"; "cplfwbudget.txt"] (Some "cplfwbudget.asc");
      Close "cplfwbudget.asc"; Close "cplfwbudget.txt"],
     s', inr tt) /\
    CplLog.st_self s' = CplLog.st_self s1 /\
    CplLog.st_env s' "ntailht" = Some lines /\
    CplLog.st_env s' "ntailfw" = Some "16".
Proof.
  intros Hwd Hts Htp Hy0 Hy1 Hcd Hcwd Hopen Hcall Hcheck. cbv zeta.
  rewrite (check_prerequisites_commands wd ts tp y0 y1 cwd
             Hwd Hts Htp Hy0 Hy1 Hcd Hcwd).
  exists (s2 ts). split.
  - rewrite io_for_each_cons, run_cmd_eq. cbv zeta.
    rewrite !Hopen, !Hcall.
    destruct (Hcheck ("cplheatbudget" +:+ ".txt")) as [m1 ->]. cbv iota.
    rewrite io_for_each_cons, run_cmd_eq. cbv zeta.
    rewrite !Hopen, !Hcall.
    destruct (Hcheck ("cplfwbudget" +:+ ".txt")) as [m2 ->]. cbv iota.
    cbn [io_for_each io_ret after app].
    rewrite <- app_assoc. cbn [app].
    destruct (uses_cpl67 ts); reflexivity.
  - unfold s2. destruct (uses_cpl67 ts);
      rewrite env_with_windows_ht, env_with_windows_fw; auto.
Qed.

(** X18: when the base class method returns and [chdir] succeeds, a missing
    key makes [check_prerequisites] raise [KeyError] for the first key
    missing among WORKDIR, TS_CPL, TOOLPATH, YEAR0 and YEAR1, in this order,
    having at most changed directory and expanded the pattern: no file has
    been opened and no program run. *)
Theorem X18_check_prerequisites_missing_key (k : string) :
  (forall wd, CplLog.st_env s1 "WORKDIR" = Some wd -> os_chdir wd = inr tt) ->
  find (fun key =>
          match CplLog.st_env s1 key with
          | None => true
          | Some _ => false
          end)
    ["WORKDIR"; "TS_CPL"; "TOOLPATH"; "YEAR0"; "YEAR1"] = Some k ->
  exists t' s',
    check_prerequisites s0 = (t0 ++ t', s', inl (KeyError k)) /\
    Forall (fun ev => exists path, ev = Chdir path \/ ev = Glob path) t'.
Proof.
  intros Hcd Hfind. unfold CplLog.check_prerequisites.
  rewrite io_bind_eq, super_returns. io_simpl.
  cbn [find] in Hfind.
  destruct (CplLog.st_env s1 "WORKDIR") as [wd |] eqn:Hwd.
  2:{ injection Hfind as <-. exists [], s1. cbn. rewrite app_nil_r. auto. }
  io_simpl. rewrite (Hcd wd eq_refl). cbv iota. rewrite after_after.
  rewrite io_bind_eq, select_version_eq.
  destruct (CplLog.st_env s1 "TS_CPL") as [ts |] eqn:Hts.
  2:{ injection Hfind as <-. do 2 eexists. split.
      - cbn [after]. rewrite <- !app_assoc. reflexivity.
      - repeat constructor. eauto. }
  assert (Body :
    forall v s t1,
      Forall (fun ev => exists path, ev = Chdir path \/ ev = Glob path) t1 ->
      CplLog.st_env s "WORKDIR" = Some wd ->
      CplLog.st_env s "TOOLPATH" = CplLog.st_env s1 "TOOLPATH" ->
      CplLog.st_env s "YEAR0" = CplLog.st_env s1 "YEAR0" ->
      CplLog.st_env s "YEAR1" = CplLog.st_env s1 "YEAR1" ->
      exists t' s',
        after (t0 ++ t1)
          (io_bind
             (CplLog.build_commands os_getcwd glob_glob os_path_abspath v)
             (fun cmdList =>
                io_for_each cmdList
                  (CplLog.run_cmd checkFile open_ subprocess_check_call)) s)
        = (t0 ++ t', s', inl (KeyError k)) /\
        Forall (fun ev => exists path, ev = Chdir path \/ ev = Glob path) t').
  { intros v s t1 Ht1 Ewd Etp Ey0 Ey1.
    assert (Done :
      forall key,
        Some key = Some k ->
        exists t' s',
          after ((t0 ++ t1) ++ [Glob (wd +:+ "/cpl.log.*")])
            ([], s, @inl exn unit (KeyError key))
          = (t0 ++ t', s', inl (KeyError k)) /\
          Forall (fun ev => exists path, ev = Chdir path \/ ev = Glob path)
            t').
    { intros key E. injection E as ->. do 2 eexists. split.
      - cbn [after]. rewrite app_nil_r, <- app_assoc. reflexivity.
      - apply Forall_app. split; [exact Ht1 |]. repeat constructor. eauto. }
    unfold CplLog.build_commands. cbv zeta.
    io_simpl. rewrite Ewd. io_simpl. rewrite Etp.
    destruct (CplLog.st_env s1 "TOOLPATH") as [tp |];
      [| now apply Done].
    io_simpl. rewrite Etp. io_simpl. rewrite Ey0.
    destruct (CplLog.st_env s1 "YEAR0") as [y0 |];
      [| now apply Done].
    io_simpl. rewrite Ey1.
    destruct (CplLog.st_env s1 "YEAR1") as [y1 |]; [discriminate |].
    now apply Done. }
  destruct (uses_cpl67 ts); rewrite after_after, <- app_assoc;
    apply Body; rewrite ?env_with_windows by discriminate; auto;
    repeat constructor; eauto.
Qed.

End CheckPrerequisites.

Lemma X16_check_prerequisites_commands_witness :
  CplLog.check_prerequisites all_present super_ok chdir_ok (inr "/w") two_logs
    (fun path => path) open_ok (call_answers "" Exit0)
    (example_state CplLog.__init__ "7") =
  after ([] ++ [Chdir "/w"; Glob "/w/cpl.log.*"; Getcwd])
    (io_for_each
       [(["/tools/process_cpl7_logfiles_heat.awk"; "y0=1"; "y1=20";
          "/w/cpl.log.1"; "/w/cpl.log.2"], "cplheatbudget", "21");
        (["/tools/process_cpl7_logfiles_fw.awk"; "y0=1"; "y1=20";
          "/w/cpl.log.1"; "/w/cpl.log.2"], "cplfwbudget", "16")]
       (CplLog.run_cmd all_present open_ok (call_answers "" Exit0))
       (with_windows "21"
          (with_windows "22" (example_state CplLog.__init__ "7")))).
Proof.
  apply (X16_check_prerequisites_commands all_present super_ok chdir_ok
           (inr "/w") two_logs (fun path => path) open_ok
           (call_answers "" Exit0)
           (example_state CplLog.__init__ "7")
           (example_state CplLog.__init__ "7") []
           eq_refl "/w" "7" "/tools" "1" "20" "/w");
    reflexivity.
Defined.

Lemma X17_check_prerequisites_succeeds_witness :
  exists s',
    CplLog.check_prerequisites all_present super_ok chdir_ok (inr "/w")
      two_logs (fun path => path) open_ok (fun _ _ _ => Exit0)
      (example_state CplLog.__init__ "7b") =
    ([] ++
     [Chdir "/w"; Glob "/w/cpl.log.*"; Getcwd;
      Open "cplheatbudget.txt" "w";
      CheckCall
        ["/tools/process_cpl7b_logfiles_heat.awk"; "y0=1"; "y1=20";
         "/w/cpl.log.1"; "/w/cpl.log.2"] (Some "cplheatbudget.txt");
      CheckFile "cplheatbudget.txt" "read";
      Open "cplheatbudget.asc" "w";
      CheckCall ["tail"; "-22"; "cplheatbudget.txt"]
        (Some "cplheatbudget.asc");
      Close "cplheatbudget.asc"; Close "cplheatbudget.txt";
      Open "cplfwbudget.txt" "w";
      CheckCall
        ["/tools/process_cpl7b_logfiles_fw.awk"; "y0=1"; "y1=20";
         "/w/cpl.log.1"; "/w/cpl.log.2"] (Some "cplfwbudget.txt");
      CheckFile "cplfwbudget.txt" "read";
      Open "cplfwbudget.asc" "w";
      CheckCall ["tail"; "-16"; "cplfwbudget.txt"] (Some "cplfwbudget.asc");
      Close "cplfwbudget.asc"; Close "cplfwbudget.txt"],
     s', inr tt) /\
    CplLog.st_self s' = CplLog.st_self (example_state CplLog.__init__ "7b") /\
    CplLog.st_env s' "ntailht" = Some "22" /\
    CplLog.st_env s' "ntailfw" = Some "16".
Proof.
  apply (X17_check_prerequisites_succeeds all_present super_ok chdir_ok
           (inr "/w") two_logs (fun path => path) open_ok
           (fun _ _ _ => Exit0)
           (example_state CplLog.__init__ "7b")
           (example_state CplLog.__init__ "7b") []
           eq_refl "/w" "7b" "/tools" "1" "20" "/w");
    try reflexivity.
  intros path. exists "". reflexivity.
Defined.

Lemma X18_check_prerequisites_missing_key_witness :
  exists t' s',
    CplLog.check_prerequisites all_present super_ok chdir_ok (inr "/w")
      two_logs (fun path => path) open_ok (fun _ _ _ => Exit0)
      {| CplLog.st_self := CplLog.__init__;
         CplLog.st_env := dict_of [("WORKDIR", "/w"); ("TS_CPL", "7")];
         CplLog.st_environ := dict_of [] |}
    = ([] ++ t', s', inl (KeyError "TOOLPATH")) /\
    Forall (fun ev => exists path, ev = Chdir path \/ ev = Glob path) t'.
Proof.
  apply (X18_check_prerequisites_missing_key all_present super_ok chdir_ok
           (inr "/w") two_logs (fun path => path) open_ok
           (fun _ _ _ => Exit0)
           {| CplLog.st_self := CplLog.__init__;
              CplLog.st_env := dict_of [("WORKDIR", "/w"); ("TS_CPL", "7")];
              CplLog.st_environ := dict_of [] |}
           {| CplLog.st_self := CplLog.__init__;
              CplLog.st_env := dict_of [("WORKDIR", "/w"); ("TS_CPL", "7")];
              CplLog.st_environ := dict_of [] |} []
           eq_refl "TOOLPATH").
  - intros wd _. reflexivity.
  - reflexivity.
Defined.

(** * [CplLog.generate_plots] *)

Section GeneratePlots.

Variable checkFile : string -> string -> exn + (bool * string).
Variable name : io CplLog.state string.
Variable os_chdir : string -> exn + unit.
Variable subprocess_check_call :
  list string -> option string -> dict -> call_result.
Variable shutil_copy2 : string -> string -> exn + unit.

Local Abbreviation plot_ncl :=
  (CplLog.plot_ncl checkFile name subprocess_check_call shutil_copy2).

Variable s : CplLog.state.
Variables ts np wd : string.
Hypothesis env_TS_CPL : CplLog.st_env s "TS_CPL" = Some ts.
Hypothesis env_NCLPATH : CplLog.st_env s "NCLPATH" = Some np.
Hypothesis env_WORKDIR : CplLog.st_env s "WORKDIR" = Some wd.

(** Where a script is copied from and to. *)
Let src (ncl : string) : string := np +:+ "/" +:+ "cpl" +:+ ts +:+ "_" +:+ ncl.
Let dst (ncl : string) : string := wd +:+ "/" +:+ "cpl" +:+ ts +:+ "_" +:+ ncl.

(** One script, case by case. *)
Lemma plot_ncl_eq (ncl : string) :
  plot_ncl ncl s =
  match shutil_copy2 (src ncl) (dst ncl) with
  | inl e => ([Copy2 (src ncl) (dst ncl)], s, inl e)
  | inr _ =>
      match checkFile (dst ncl) "read" with
      | inl e =>
          ([Copy2 (src ncl) (dst ncl); CheckFile (dst ncl) "read"], s, inl e)
      | inr (false, _) =>
          ([Copy2 (src ncl) (dst ncl); CheckFile (dst ncl) "read"], s, inr tt)
      | inr (true, _) =>
          match subprocess_check_call ["ncl"; dst ncl] None (CplLog.st_env s)
          with
          | Exit0 =>
              ([Copy2 (src ncl) (dst ncl); CheckFile (dst ncl) "read";
                CheckCall ["ncl"; dst ncl] None], s, inr tt)
          | CallRaised e =>
              ([Copy2 (src ncl) (dst ncl); CheckFile (dst ncl) "read";
                CheckCall ["ncl"; dst ncl] None], s, inl e)
          | CalledProcessError _ =>
              match name s with
              | (tn, sn, r) =>
                  ([Copy2 (src ncl) (dst ncl); CheckFile (dst ncl) "read";
                    CheckCall ["ncl"; dst ncl] None] ++ tn, sn,
                   inl match r with
                       | inl e => e
                       | inr _ => NameError "nclfile"
                       end)
              end
          end
      end
  end.
Proof.
  unfold CplLog.plot_ncl. cbv zeta.
  repeat (io_simpl; rewrite ?env_TS_CPL, ?env_NCLPATH, ?env_WORKDIR).
  fold (src ncl) (dst ncl).
  destruct (shutil_copy2 (src ncl) (dst ncl)) as [e | u]; [reflexivity |].
  io_simpl.
  destruct (checkFile (dst ncl) "read") as [e | [[|] msg]];
    try reflexivity.
  rewrite io_bind_eq. unfold CplLog.check_call.
  destruct (subprocess_check_call ["ncl"; dst ncl] None (CplLog.st_env s))
    as [| n | e]; try reflexivity.
  rewrite io_bind_eq.
  destruct (name s) as [[tn sn] [e | nm]]; cbn; rewrite ?app_nil_r;
    reflexivity.
Qed.

(** X19: when the three keys are in [env], [chdir] succeeds and, for every
    script of [self._ncl], the copy succeeds, the copy is readable and [ncl]
    exits with status 0, [generate_plots] returns with the state unchanged
    after changing to [WORKDIR] and, for each script in order, copying
    [NCLPATH/cpl<TS_CPL>_<script>] to [WORKDIR/cpl<TS_CPL>_<script>],
    checking the copy and running [ncl] on it.  With no script, as in
    [CplLog()], it only changes directory. *)
Theorem X19_generate_plots_succeeds :
  os_chdir wd = inr tt ->
  (forall ncl,
     In ncl (CplLog._ncl (CplLog.st_self s)) ->
     shutil_copy2 (src ncl) (dst ncl) = inr tt /\
     (exists msg, checkFile (dst ncl) "read" = inr (true, msg)) /\
     subprocess_check_call ["ncl"; dst ncl] None (CplLog.st_env s) = Exit0) ->
  CplLog.generate_plots checkFile name os_chdir subprocess_check_call
    shutil_copy2 s =
  (Chdir wd ::
   flat_map
     (fun ncl =>
        [Copy2 (src ncl) (dst ncl); CheckFile (dst ncl) "read";
         CheckCall ["ncl"; dst ncl] None])
     (CplLog._ncl (CplLog.st_self s)),
   s, inr tt).
Proof.
  intros Hcd Hall. unfold CplLog.generate_plots.
  io_simpl. rewrite env_WORKDIR. io_simpl. rewrite Hcd. cbv iota.
  rewrite io_bind_eq. cbv iota beta. rewrite after_nil.
  induction (CplLog._ncl (CplLog.st_self s)) as [| ncl ncls IH].
  - reflexivity.
  - rewrite io_for_each_cons, plot_ncl_eq.
    destruct (Hall ncl (or_introl eq_refl)) as (-> & [msg ->] & ->).
    rewrite after_after.
    assert (IH' := IH (fun n Hn => Hall n (or_intror Hn))).
    cbn [flat_map app]. 
    destruct (io_for_each ncls plot_ncl s) as [[t' s'] r'].
    cbn [after app] in *. injection IH' as <- <- <-. reflexivity.
Qed.

(** X20: when [ncl] exits with a non-zero status on a script, the handler
    evaluates [self.name()] and then the unbound name [nclfile]:
    [generate_plots] stops there with an exception, [NameError] if
    [self.name()] returns, and none of the scripts after it is copied or
    run. *)
Theorem X20_ncl_failure_stops (ncl msg : string) (returncode : Z)
  (rest : list string) :
  shutil_copy2 (src ncl) (dst ncl) = inr tt ->
  checkFile (dst ncl) "read" = inr (true, msg) ->
  subprocess_check_call ["ncl"; dst ncl] None (CplLog.st_env s)
    = CalledProcessError returncode ->
  io_for_each (ncl :: rest) plot_ncl s =
  ([Copy2 (src ncl) (dst ncl); CheckFile (dst ncl) "read";
    CheckCall ["ncl"; dst ncl] None] ++ fst (fst (name s)),
   snd (fst (name s)),
   inl match snd (name s) with
       | inl e => e
       | inr _ => NameError "nclfile"
       end).
Proof.
  intros H1 H2 H3. rewrite io_for_each_cons, plot_ncl_eq, H1, H2, H3.
  destruct (name s) as [[tn sn] r]. reflexivity.
Qed.

(** X21: a script whose copy is reported unreadable is not run, and
    [generate_plots] goes on with the next script. *)
Theorem X21_unreadable_script_is_skipped (ncl msg : string)
  (rest : list string) :
  shutil_copy2 (src ncl) (dst ncl) = inr tt ->
  checkFile (dst ncl) "read" = inr (false, msg) ->
  io_for_each (ncl :: rest) plot_ncl s =
  after [Copy2 (src ncl) (dst ncl); CheckFile (dst ncl) "read"]
    (io_for_each rest plot_ncl s).
Proof.
  intros H1 H2. rewrite io_for_each_cons, plot_ncl_eq, H1, H2. reflexivity.
Qed.

(** X22: a script that cannot be copied ends [generate_plots] with the
    exception of [shutil.copy2]: the copy is outside every [try], so the
    scripts after it are neither copied nor run. *)
Theorem X22_copy_failure_stops (ncl : string) (e : exn)
  (rest : list string) :
  shutil_copy2 (src ncl) (dst ncl) = inl e ->
  io_for_each (ncl :: rest) plot_ncl s =
  ([Copy2 (src ncl) (dst ncl)], s, inl e).
Proof.
  intros H1. rewrite io_for_each_cons, plot_ncl_eq, H1. reflexivity.
Qed.

End GeneratePlots.

Lemma X19_generate_plots_succeeds_witness :
  CplLog.generate_plots all_present name_ok chdir_ok (fun _ _ _ => Exit0)
    copy_ok (example_state CplLog_timeseries.__init__ "7") =
  ([Chdir "/w";
    Copy2 "/ncl/cpl7_log_timeseries_heat.ncl" "/w/cpl7_log_timeseries_heat.ncl";
    CheckFile "/w/cpl7_log_timeseries_heat.ncl" "read";
    CheckCall ["ncl"; "/w/cpl7_log_timeseries_heat.ncl"] None;
    Copy2 "/ncl/cpl7_log_timeseries_fw.ncl" "/w/cpl7_log_timeseries_fw.ncl";
    CheckFile "/w/cpl7_log_timeseries_fw.ncl" "read";
    CheckCall ["ncl"; "/w/cpl7_log_timeseries_fw.ncl"] None],
   example_state CplLog_timeseries.__init__ "7", inr tt).
Proof.
  apply (X19_generate_plots_succeeds all_present name_ok chdir_ok
           (fun _ _ _ => Exit0) copy_ok
           (example_state CplLog_timeseries.__init__ "7") "7" "/ncl" "/w");
    try reflexivity.
  intros ncl _. split; [reflexivity |]. split; [| reflexivity].
  exists "". reflexivity.
Defined.

Lemma X20_ncl_failure_stops_witness :
  io_for_each ["log_timeseries_heat.ncl"; "log_timeseries_fw.ncl"]
    (CplLog.plot_ncl all_present name_ok
       (call_answers "ncl" (CalledProcessError 1)) copy_ok)
    (example_state CplLog_timeseries.__init__ "7") =
  ([Copy2 "/ncl/cpl7_log_timeseries_heat.ncl" "/w/cpl7_log_timeseries_heat.ncl";
    CheckFile "/w/cpl7_log_timeseries_heat.ncl" "read";
    CheckCall ["ncl"; "/w/cpl7_log_timeseries_heat.ncl"] None],
   example_state CplLog_timeseries.__init__ "7",
   inl (NameError "nclfile")).
Proof.
  apply (X20_ncl_failure_stops all_present name_ok
           (call_answers "ncl" (CalledProcessError 1)) copy_ok
           (example_state CplLog_timeseries.__init__ "7") "7" "/ncl" "/w"
           eq_refl eq_refl eq_refl
           "log_timeseries_heat.ncl" "" 1%Z ["log_timeseries_fw.ncl"]);
    reflexivity.
Defined.

Lemma X21_unreadable_script_is_skipped_witness :
  io_for_each ["log_timeseries_heat.ncl"]
    (CplLog.plot_ncl all_missing name_ok (fun _ _ _ => Exit0) copy_ok)
    (example_state CplLog_timeseries.__init__ "7") =
  ([Copy2 "/ncl/cpl7_log_timeseries_heat.ncl" "/w/cpl7_log_timeseries_heat.ncl";
    CheckFile "/w/cpl7_log_timeseries_heat.ncl" "read"],
   example_state CplLog_timeseries.__init__ "7", inr tt).
Proof.
  apply (X21_unreadable_script_is_skipped all_missing name_ok
           (fun _ _ _ => Exit0) copy_ok
           (example_state CplLog_timeseries.__init__ "7") "7" "/ncl" "/w"
           eq_refl eq_refl eq_refl
           "log_timeseries_heat.ncl"
           "/w/cpl7_log_timeseries_heat.ncl does not exist" []);
    reflexivity.
Defined.

Lemma X22_copy_failure_stops_witness :
  io_for_each ["log_timeseries_heat.ncl"; "log_timeseries_fw.ncl"]
    (CplLog.plot_ncl all_present name_ok (fun _ _ _ => Exit0)
       (fun _ _ => inl (OtherError "IOError: no such file")))
    (example_state CplLog_timeseries.__init__ "7") =
  ([Copy2 "/ncl/cpl7_log_timeseries_heat.ncl"
      "/w/cpl7_log_timeseries_heat.ncl"],
   example_state CplLog_timeseries.__init__ "7",
   inl (OtherError "IOError: no such file")).
Proof.
  apply (X22_copy_failure_stops all_present name_ok (fun _ _ _ => Exit0)
           (fun _ _ => inl (OtherError "IOError: no such file"))
           (example_state CplLog_timeseries.__init__ "7") "7" "/ncl" "/w"
           eq_refl eq_refl eq_refl
           "log_timeseries_heat.ncl" (OtherError "IOError: no such file")
           ["log_timeseries_fw.ncl"]).
  reflexivity.
Defined.
